(** * Quota backends of the document manager (mayan/apps/quotas/quota_backends.py)

    A shallow embedding of [DocumentCountQuota] and [DocumentSizeQuota] and of
    the part of the host application they query, followed by the properties
    of their [process] hooks. *)

From Stdlib Require Import ZArith QArith List String Bool Lia.
From stdpp Require Import base option gmap strings pretty.
Import ListNotations.

Local Open Scope string_scope.
Local Open Scope Z_scope.

(** ** Outcome of a Python call: a value or a raised exception *)

Inductive exception : Type :=
  | KeyError (key : string)
  | AttributeError (name : string)
  | QuotaExceeded (message : string).

Inductive outcome (A : Type) : Type :=
  | Return (a : A)
  | Raise (e : exception).

Arguments Return {A} a.
Arguments Raise {A} e.

(** Sequencing: an exception raised by the first call ends the evaluation. *)
Definition bind {A B : Type} (m : outcome A) (k : A -> outcome B) : outcome B :=
  match m with
  | Return a => k a
  | Raise e => Raise e
  end.

Notation "'let*' x ':=' m 'in' k" := (bind m (fun x => k))
  (at level 10, x name, m at level 100, k at level 200).

(** [raises_quota o]: the call ended in a QuotaExceeded error. *)
Definition raises_quota {A : Type} (o : outcome A) : bool :=
  match o with
  | Raise (QuotaExceeded _) => true
  | _ => false
  end.

(** ** Rows and model instances of the host application *)

(** An audit action (actstream) attached to its target document. *)
Record Action : Type := {
  verb : string;
  actor_content_type : Z;
  actor_object_id : Z
}.

(** A document: [document_pk] is [None] until the row is written. *)
Record Document : Type := {
  document_pk : option Z;
  document_type_id : Z;
  target_actions : list Action
}.

(** A document version with the size in bytes of its file. *)
Record DocumentVersion : Type := {
  version_pk : option Z;
  file_size : Z;
  document : Document
}.

Record User : Type := {
  user_pk : Z;
  is_superuser : bool;
  is_staff : bool;
  user_groups : list Z
}.

(** What the names imported by the module resolve to in the running site:
    the tables behind the model managers, the content type row of the user
    model, the queryset of [user_management.querysets.get_user_queryset] and
    the id of the event type [documents.events.event_document_create]. *)
Record Site : Type := {
  users : list User;
  groups : list Z;
  document_types : list Z;
  documents : list Document;
  user_content_type : Z;
  get_user_queryset : list User;
  event_document_create_id : string
}.

(** The values that travel in the keyword arguments of the signal. *)
Inductive pyval : Type :=
  | PyNone
  | PyUser (u : User)
  | PyDocument (d : Document)
  | PyDocumentVersion (v : DocumentVersion).

(** Truth value of an object: [None] is false, model instances are true. *)
Definition truthy (v : pyval) : bool :=
  match v with
  | PyNone => false
  | _ => true
  end.

(** Truth value of a primary key: [None] and [0] are false. *)
Definition truthy_pk (pk : option Z) : bool :=
  match pk with
  | None => false
  | Some n => negb (n =? 0)
  end.

(** [kwargs[key]]: a missing key raises KeyError. *)
Definition getitem (kwargs : gmap string pyval) (key : string) : outcome pyval :=
  match kwargs !! key with
  | Some v => Return v
  | None => Raise (KeyError key)
  end.

(** [kwargs.get(key)]: a missing key gives [None]. *)
Definition get (kwargs : gmap string pyval) (key : string) : pyval :=
  default PyNone (kwargs !! key).

(** Attribute reads; an object without the attribute raises AttributeError. *)
Definition attr_pk (v : pyval) : outcome (option Z) :=
  match v with
  | PyNone => Raise (AttributeError "pk")
  | PyUser u => Return (Some (user_pk u))
  | PyDocument d => Return (document_pk d)
  | PyDocumentVersion dv => Return (version_pk dv)
  end.

Definition attr_is_superuser (v : pyval) : outcome bool :=
  match v with
  | PyUser u => Return (is_superuser u)
  | _ => Raise (AttributeError "is_superuser")
  end.

Definition attr_is_staff (v : pyval) : outcome bool :=
  match v with
  | PyUser u => Return (is_staff u)
  | _ => Raise (AttributeError "is_staff")
  end.

(** [instance.file.size] *)
Definition attr_file_size (v : pyval) : outcome Z :=
  match v with
  | PyDocumentVersion dv => Return (file_size dv)
  | _ => Raise (AttributeError "file")
  end.

(** [instance.document.document_type.pk] *)
Definition attr_document_type_pk (v : pyval) : outcome Z :=
  match v with
  | PyDocumentVersion dv => Return (document_type_id (document dv))
  | _ => Raise (AttributeError "document")
  end.


(** ** The fragment of the ORM the backends use *)

Definition pk__in (pks : list Z) (pk : Z) : bool :=
  existsb (Z.eqb pk) pks.

(** Field lookups given to [Document.objects.filter]. *)
Inductive lookup : Type :=
  | target_actions__verb (v : string)
  | document_type_id__in (pks : list Z)
  | target_actions__actor_object_id (pk : option Z)
  | target_actions__actor_content_type (ct : Z).

(** Lookups that span the [target_actions] relation. *)
Definition spans_actions (l : lookup) : bool :=
  match l with
  | document_type_id__in _ => false
  | _ => true
  end.

Definition document_matches (d : Document) (l : lookup) : bool :=
  match l with
  | document_type_id__in pks => pk__in pks (document_type_id d)
  | _ => true
  end.

Definition action_matches (a : Action) (l : lookup) : bool :=
  match l with
  | target_actions__verb v => String.eqb (verb a) v
  | target_actions__actor_object_id pk =>
      match pk with
      | Some n => actor_object_id a =? n
      | None => false
      end
  | target_actions__actor_content_type ct => actor_content_type a =? ct
  | document_type_id__in _ => true
  end.

(** [Document.objects.filter] applied to [filter_kwargs]: the lookups of one call are
    met by one and the same related action, and the join yields the document
    once for every such action (no [distinct()] is applied). *)
Definition Document_objects_filter (site : Site) (filter_kwargs : list lookup)
  : list Document :=
  flat_map
    (fun d =>
       if forallb (document_matches d) filter_kwargs then
         if existsb spans_actions filter_kwargs then
           map (fun _ => d)
             (List.filter (fun a => forallb (action_matches a) filter_kwargs)
                (target_actions d))
         else [d]
       else [])
    (documents site).

(** [queryset.count()] *)
Definition count {A : Type} (queryset : list A) : Z :=
  Z.of_nat (length queryset).

(** [queryset.exists()] *)
Definition exists_ {A : Type} (queryset : list A) : bool :=
  match queryset with
  | [] => false
  | _ :: _ => true
  end.

(** [users.filter(pk=pk)]; no row has a null key. *)
Definition filter_pk (queryset : list User) (pk : option Z) : list User :=
  match pk with
  | Some n => List.filter (fun u => user_pk u =? n) queryset
  | None => []
  end.

(** [queryset.filter(groups__in=groups)]: one row per matching membership. *)
Definition filter_groups__in (queryset : list User) (gs : list Z) : list User :=
  flat_map
    (fun u => map (fun _ => u) (List.filter (pk__in gs) (user_groups u)))
    queryset.

(** [a | b]: the rows of either queryset. *)
Definition queryset_or {A : Type} (a b : list A) : list A := a ++ b.

(** [filter_kwargs.update(more)]: the keys added in this module never repeat
    one already present, so the update only adds lookups. *)
Definition update (filter_kwargs more : list lookup) : list lookup :=
  filter_kwargs ++ more.

(** ** Scope mixins (mayan/apps/quotas/mixins.py) *)

Module mixins.

(** The attributes the document type mixin reads from the backend. *)
Class DocumentTypesQuotaMixin (Q : Type) : Type := {
  document_type_all : Q -> bool;
  document_type_ids : Q -> list Z
}.

(** The attributes the groups and users mixin reads from the backend. *)
Class GroupsUsersQuotaMixin (Q : Type) : Type := {
  group_ids : Q -> list Z;
  user_all : Q -> bool;
  user_ids : Q -> list Z
}.

(** Modelled from the spec: [DocumentTypesQuotaMixin._get_document_types] is
    not part of this module; the scope resolver turns the configured document
    type identifiers into the concrete set of document types. *)
Definition _get_document_types {Q : Type} `{DocumentTypesQuotaMixin Q}
  (site : Site) (self : Q) : list Z :=
  List.filter (pk__in (document_type_ids self)) (document_types site).

(** Modelled from the spec: [GroupsUsersQuotaMixin._get_groups] is not part of
    this module; it turns the configured group identifiers into the concrete
    set of groups. *)
Definition _get_groups {Q : Type} `{GroupsUsersQuotaMixin Q}
  (site : Site) (self : Q) : list Z :=
  List.filter (pk__in (group_ids self)) (groups site).

(** Modelled from the spec: [GroupsUsersQuotaMixin._get_users] is not part of
    this module; it turns the configured user identifiers into the concrete
    set of users. *)
Definition _get_users {Q : Type} `{GroupsUsersQuotaMixin Q}
  (site : Site) (self : Q) : list User :=
  List.filter (fun u => pk__in (user_ids self) (user_pk u)) (users site).

End mixins.

(** [self._get_users() | get_user_queryset().filter(groups__in=self._get_groups())],
    the queryset both backends build to decide whether a user is in scope. *)
Definition scoped_users {Q : Type} `{mixins.GroupsUsersQuotaMixin Q}
  (site : Site) (self : Q) : list User :=
  queryset_or (mixins._get_users site self)
    (filter_groups__in (get_user_queryset site) (mixins._get_groups site self)).

(** ** DocumentCountQuota *)

Module DocumentCountQuota.

Record t : Type := __init__ {
  document_type_all : bool;
  document_type_ids : list Z;
  documents_limit : Z;
  group_ids : list Z;
  user_all : bool;
  user_ids : list Z
}.

#[global] Instance document_types_mixin : mixins.DocumentTypesQuotaMixin t := {|
  mixins.document_type_all := document_type_all;
  mixins.document_type_ids := document_type_ids
|}.

#[global] Instance groups_users_mixin : mixins.GroupsUsersQuotaMixin t := {|
  mixins.group_ids := group_ids;
  mixins.user_all := user_all;
  mixins.user_ids := user_ids
|}.

(** The class attribute [error_message] (the translation wrapper [_] is the
    identity on the source language). *)
Definition error_message : string := "Document count quota exceeded.".

Definition _allowed (self : t) : Z := documents_limit self.


Definition _get_user_document_count (site : Site) (self : t) (user : pyval)
  : outcome Z :=
  let filter_kwargs := [target_actions__verb (event_document_create_id site)] in
  let filter_kwargs :=
    if negb (document_type_all self) then
      update filter_kwargs
        [document_type_id__in (mixins._get_document_types site self)]
    else filter_kwargs in
  if truthy user then
    let* is_superuser := attr_is_superuser user in
    let* admin := (if is_superuser then Return true else attr_is_staff user) in
    if admin then Return 0
    else
      let* outside :=
        (if negb (user_all self) then
           let* pk := attr_pk user in
           Return (negb (exists_ (filter_pk (scoped_users site self) pk)))
         else Return false) in
      if outside then Return 0
      else
        let content_type := user_content_type site in
        let* pk := attr_pk user in
        let filter_kwargs :=
          update filter_kwargs
            [target_actions__actor_object_id pk;
             target_actions__actor_content_type content_type] in
        Return (count (Document_objects_filter site filter_kwargs))
  else Return (count (Document_objects_filter site filter_kwargs)).

Definition process (site : Site) (self : t) (kwargs : gmap string pyval)
  : outcome unit :=
  let* instance := getitem kwargs "instance" in
  let* pk := attr_pk instance in
  if negb (truthy_pk pk) then
    let* document_count := _get_user_document_count site self (get kwargs "user") in
    if document_count >=? _allowed self then
      Raise (QuotaExceeded "Document size quota exceeded.")
    else Return tt
  else Return tt.

End DocumentCountQuota.

(** ** DocumentSizeQuota *)

Module DocumentSizeQuota.

(** [document_size_limit] is a Python float. Multiplying a binary float by
    1024 is exact short of overflow, and Python compares an integer with a
    float by their exact values, so rational arithmetic reproduces
    [_allowed] and the comparison of [process]. *)
Record t : Type := __init__ {
  document_size_limit : Q;
  document_type_all : bool;
  document_type_ids : list Z;
  group_ids : list Z;
  user_all : bool;
  user_ids : list Z
}.

#[global] Instance document_types_mixin : mixins.DocumentTypesQuotaMixin t := {|
  mixins.document_type_all := document_type_all;
  mixins.document_type_ids := document_type_ids
|}.

#[global] Instance groups_users_mixin : mixins.GroupsUsersQuotaMixin t := {|
  mixins.group_ids := group_ids;
  mixins.user_all := user_all;
  mixins.user_ids := user_ids
|}.

Definition _allowed (self : t) : Q :=
  (document_size_limit self * 1024 * 1024)%Q.

Definition process (site : Site) (self : t) (kwargs : gmap string pyval)
  : outcome unit :=
  let* instance := getitem kwargs "instance" in
  let* pk := attr_pk instance in
  if negb (truthy_pk pk) then
    let* size := attr_file_size instance in
    if Qle_bool (_allowed self) (inject_Z size) then
      let* type_in_scope :=
        (if document_type_all self then Return true
         else
           let* type_pk := attr_document_type_pk instance in
           Return (exists_ (List.filter (Z.eqb type_pk)
                              (mixins._get_document_types site self)))) in
      if type_in_scope then
        let* user := getitem kwargs "user" in
        let* admin :=
          (if truthy user then
             let* is_superuser := attr_is_superuser user in
             if is_superuser then Return true else attr_is_staff user
           else Return false) in
        if admin then Return tt
        else
          let users := scoped_users site self in
          let* applies :=
            (if user_all self then Return true
             else if truthy user then
               let* user_pk := attr_pk user in
               Return (exists_ (filter_pk users user_pk))
             else Return false) in
          if applies then
            Raise (QuotaExceeded "Document size quota exceeded.")
          else Return tt
      else Return tt
    else Return tt
  else Return tt.

End DocumentSizeQuota.

(** ** Vocabulary of the properties *)

(** The action records a "document created" event. *)
Definition is_creation (site : Site) (a : Action) : bool :=
  String.eqb (verb a) (event_document_create_id site).

(** The action is attributed to the user [u]. *)
Definition attributed_to (site : Site) (u : User) (a : Action) : bool :=
  (actor_object_id a =? user_pk u) && (actor_content_type a =? user_content_type site).

(** The document type [type_pk] lies in the document type scope of the backend. *)
Definition type_in_scope {Q : Type} `{mixins.DocumentTypesQuotaMixin Q}
  (site : Site) (self : Q) (type_pk : Z) : bool :=
  mixins.document_type_all self
  || pk__in (mixins._get_document_types site self) type_pk.

(** The creation records, selected by [by_actor], of the documents whose type
    lies in the document type scope. *)
Definition creations (site : Site) (self : DocumentCountQuota.t)
  (by_actor : Action -> bool) : list Action :=
  flat_map
    (fun d =>
       if type_in_scope site self (document_type_id d) then
         List.filter (fun a => is_creation site a && by_actor a) (target_actions d)
       else [])
    (documents site).

(** Creations by the user [u] that the count quota matches. *)
Definition creations_by (site : Site) (self : DocumentCountQuota.t) (u : User) : Z :=
  count (creations site self (attributed_to site u)).

(** Creations by anybody that the count quota matches. *)
Definition creations_by_anyone (site : Site) (self : DocumentCountQuota.t) : Z :=
  count (creations site self (fun _ => true)).

(** Documents of the document type scope that bear a creation record. *)
Definition created_documents (site : Site) (self : DocumentCountQuota.t)
  : list Document :=
  List.filter
    (fun d => type_in_scope site self (document_type_id d)
              && existsb (is_creation site) (target_actions d))
    (documents site).

(** The user is superuser or staff. *)
Definition privileged (u : User) : bool := is_superuser u || is_staff u.

(** The user is named by the configured user ids, or belongs to one of the
    configured groups. *)
Definition in_explicit_scope {Q : Type} `{mixins.GroupsUsersQuotaMixin Q}
  (site : Site) (self : Q) (u : User) : Prop :=
  (In (user_pk u) (mixins.user_ids self)
   /\ exists r, In r (users site) /\ user_pk r = user_pk u)
  \/ (exists r g,
        In r (get_user_queryset site) /\ user_pk r = user_pk u
        /\ In g (user_groups r)
        /\ In g (mixins.group_ids self) /\ In g (groups site)).

(** The backend is scoped to all users, or [u] is in its explicit scope. *)
Definition in_actor_scope {Q : Type} `{mixins.GroupsUsersQuotaMixin Q}
  (site : Site) (self : Q) (u : User) : Prop :=
  mixins.user_all self = true \/ in_explicit_scope site self u.

(** The size quota applies to the actor carried by the signal: nobody while
    the backend is scoped to all users, or an unprivileged user of the scope. *)
Definition quota_applies_to {Q : Type} `{mixins.GroupsUsersQuotaMixin Q}
  (site : Site) (self : Q) (user : option pyval) : Prop :=
  match user with
  | Some PyNone => mixins.user_all self = true
  | Some (PyUser u) => privileged u = false /\ in_actor_scope site self u
  | _ => False
  end.

(** The site once further documents have been stored. *)
Definition store_documents (site : Site) (new_documents : list Document) : Site :=
  {| users := users site;
     groups := groups site;
     document_types := document_types site;
     documents := new_documents ++ documents site;
     user_content_type := user_content_type site;
     get_user_queryset := get_user_queryset site;
     event_document_create_id := event_document_create_id site |}.

(** The record that the creation of a document by the user [u] leaves. *)
Definition creation_record (site : Site) (u : User) : Action :=
  {| verb := event_document_create_id site;
     actor_content_type := user_content_type site;
     actor_object_id := user_pk u |}.

(** The stored document [d] does not count for [u]: its type lies outside
    the document type scope, or none of its actions records a creation by [u]. *)
Definition irrelevant_to {Q : Type} `{mixins.DocumentTypesQuotaMixin Q}
  (site : Site) (self : Q) (u : User) (d : Document) : Prop :=
  type_in_scope site self (document_type_id d) = false
  \/ Forall (fun a => is_creation site a && attributed_to site u a = false)
       (target_actions d).

(** The stored document [d] is of a type in the document type scope and
    bears one action, the record of its creation by [u]. *)
Definition created_in_scope_by {Q : Type} `{mixins.DocumentTypesQuotaMixin Q}
  (site : Site) (self : Q) (u : User) (d : Document) : Prop :=
  type_in_scope site self (document_type_id d) = true
  /\ target_actions d = [creation_record site u].

(** The signal carries no user, or a user object. *)
Definition user_argument (kwargs : gmap string pyval) : Prop :=
  kwargs !! "user" = None
  \/ kwargs !! "user" = Some PyNone
  \/ exists u, kwargs !! "user" = Some (PyUser u).

(** ** A sample site *)

Module Sample.

Definition created_by (pk : Z) : Action :=
  {| verb := "documents.document_create";
     actor_content_type := 4;
     actor_object_id := pk |}.

Definition root : User :=
  {| user_pk := 1; is_superuser := true; is_staff := false; user_groups := [] |}.

Definition alice : User :=
  {| user_pk := 7; is_superuser := false; is_staff := false; user_groups := [] |}.

Definition bob : User :=
  {| user_pk := 8; is_superuser := false; is_staff := false; user_groups := [3] |}.

Definition stored_document (pk type_pk actor : Z) : Document :=
  {| document_pk := Some pk;
     document_type_id := type_pk;
     target_actions := [created_by actor] |}.

(** One document of type 1, created by alice. *)
Definition site : Site :=
  {| users := [root; alice; bob];
     groups := [3];
     document_types := [1; 2];
     documents := [stored_document 10 1 7];
     user_content_type := 4;
     get_user_queryset := [alice; bob];
     event_document_create_id := "documents.document_create" |}.

Definition new_document (type_pk : Z) : Document :=
  {| document_pk := None; document_type_id := type_pk; target_actions := [] |}.

Definition new_version (size type_pk : Z) : DocumentVersion :=
  {| version_pk := None;
     file_size := size;
     document := stored_document 10 type_pk 7 |}.

(** The keyword arguments of the signal: the instance and the acting user. *)
Definition signal_kwargs (instance user : pyval) : gmap string pyval :=
  <["user" := user]> (<["instance" := instance]> ∅).

(** Keyword arguments of a signal sent without any [user] key. *)
Definition signal_kwargs_no_user (instance : pyval) : gmap string pyval :=
  <["instance" := instance]> ∅.

End Sample.

(** ** Evaluation lemmas *)

Lemma getitem_Some (kwargs : gmap string pyval) key v :
  kwargs !! key = Some v -> getitem kwargs key = Return v.
Proof. intros E. unfold getitem. now rewrite E. Qed.

Lemma getitem_None (kwargs : gmap string pyval) key :
  kwargs !! key = None -> getitem kwargs key = Raise (KeyError key).
Proof. intros E. unfold getitem. now rewrite E. Qed.

Lemma get_Some (kwargs : gmap string pyval) key v :
  kwargs !! key = Some v -> get kwargs key = v.
Proof. intros E. unfold get. now rewrite E. Qed.

Lemma get_None (kwargs : gmap string pyval) key :
  kwargs !! key = None -> get kwargs key = PyNone.
Proof. intros E. unfold get. now rewrite E. Qed.

Lemma exists_In {A : Type} (l : list A) :
  exists_ l = true <-> exists x, In x l.
Proof.
  destruct l as [|x l]; simpl; split.
  - discriminate.
  - intros [x []].
  - intros _. exists x. now left.
  - reflexivity.
Qed.

Lemma pk__in_In (pks : list Z) (pk : Z) : pk__in pks pk = true <-> In pk pks.
Proof.
  unfold pk__in. rewrite existsb_exists. split.
  - intros [x [Hx E]]. apply Z.eqb_eq in E. now subst.
  - intros Hx. exists pk. split; [assumption | apply Z.eqb_refl].
Qed.

Lemma length_flat_map_pointwise {A B C : Type} (f : A -> list B) (g : A -> list C) l :
  (forall x, In x l -> length (f x) = length (g x)) ->
  length (flat_map f l) = length (flat_map g l).
Proof.
  induction l as [|x l IH]; intros Hfg; simpl; [reflexivity|].
  rewrite !length_app, (Hfg x) by now left.
  rewrite IH; [reflexivity|]. intros y Hy. apply Hfg. now right.
Qed.

Lemma length_filter_pointwise {A : Type} (f g : A -> bool) l :
  (forall x, f x = g x) ->
  length (List.filter f l) = length (List.filter g l).
Proof.
  intros Hfg. induction l as [|x l IH]; simpl; [reflexivity|].
  rewrite Hfg. destruct (g x); simpl; now rewrite IH.
Qed.

(** The users queryset contains a row with key [pk] exactly for the users of
    the explicit scope. *)
Lemma scoped_users_spec {Q : Type} `{mixins.GroupsUsersQuotaMixin Q}
  (site : Site) (self : Q) (u : User) :
  exists_ (filter_pk (scoped_users site self) (Some (user_pk u))) = true
  <-> in_explicit_scope site self u.
Proof.
  rewrite exists_In. unfold filter_pk, scoped_users, queryset_or, in_explicit_scope.
  split.
  - intros [r Hr]. apply filter_In in Hr as [Hr Hpk].
    apply Z.eqb_eq in Hpk. apply in_app_or in Hr as [Hr|Hr].
    + left. unfold mixins._get_users in Hr. apply filter_In in Hr as [Hr Hin].
      apply pk__in_In in Hin. rewrite Hpk in Hin. split; [assumption|].
      exists r. now split.
    + right. unfold filter_groups__in in Hr. apply in_flat_map in Hr as [r' [Hr' Hm]].
      apply in_map_iff in Hm as [g [E Hg]]. subst r'.
      apply filter_In in Hg as [Hg Hin].
      apply pk__in_In in Hin. unfold mixins._get_groups in Hin.
      apply filter_In in Hin as [Hgs Hids]. apply pk__in_In in Hids.
      exists r, g. repeat split; assumption.
  - intros [[Hids [r [Hr Hpk]]] | [r [g [Hr [Hpk [Hg [Hids Hgs]]]]]]].
    + exists r. apply filter_In. split; [|now apply Z.eqb_eq].
      apply in_or_app. left. unfold mixins._get_users. apply filter_In.
      split; [assumption|]. apply pk__in_In. now rewrite Hpk.
    + exists r. apply filter_In. split; [|now apply Z.eqb_eq].
      apply in_or_app. right. unfold filter_groups__in. apply in_flat_map.
      exists r. split; [assumption|]. apply in_map_iff. exists g.
      split; [reflexivity|]. apply filter_In. split; [assumption|].
      apply pk__in_In. unfold mixins._get_groups. apply filter_In.
      split; [assumption|]. now apply pk__in_In.
Qed.

(** The query of [_get_user_document_count] selects the creation records of
    the documents in the type scope, restricted to an actor when one is given. *)
Lemma document_count_anyone (site : Site) (self : DocumentCountQuota.t) :
  DocumentCountQuota._get_user_document_count site self PyNone
  = Return (creations_by_anyone site self).
Proof.
  unfold DocumentCountQuota._get_user_document_count, creations_by_anyone,
    creations, count, Document_objects_filter, update, type_in_scope.
  simpl. f_equal. f_equal.
  apply length_flat_map_pointwise. intros d _.
  destruct (DocumentCountQuota.document_type_all self); simpl.
  - rewrite length_map. apply length_filter_pointwise. intros a.
    unfold is_creation. reflexivity.
  - destruct (pk__in _ (document_type_id d)); simpl; [|reflexivity].
    rewrite length_map. apply length_filter_pointwise. intros a.
    unfold is_creation. now rewrite !andb_true_r.
Qed.

Lemma document_count_actor (site : Site) (self : DocumentCountQuota.t) (u : User) :
  count
    (Document_objects_filter site
       (update
          (if negb (DocumentCountQuota.document_type_all self) then
             update [target_actions__verb (event_document_create_id site)]
               [document_type_id__in (mixins._get_document_types site self)]
           else [target_actions__verb (event_document_create_id site)])
          [target_actions__actor_object_id (Some (user_pk u));
           target_actions__actor_content_type (user_content_type site)]))
  = creations_by site self u.
Proof.
  unfold creations_by, creations, count, Document_objects_filter, update,
    type_in_scope.
  simpl. f_equal.
  apply length_flat_map_pointwise. intros d _.
  destruct (DocumentCountQuota.document_type_all self); simpl.
  - rewrite length_map. apply length_filter_pointwise. intros a.
    unfold is_creation, attributed_to. now rewrite !andb_true_r.
  - destruct (pk__in _ (document_type_id d)); simpl; [|reflexivity].
    rewrite length_map. apply length_filter_pointwise. intros a.
    unfold is_creation, attributed_to. now rewrite !andb_true_r.
Qed.

Lemma document_count_user (site : Site) (self : DocumentCountQuota.t) (u : User) :
  DocumentCountQuota._get_user_document_count site self (PyUser u)
  = Return
      (if privileged u then 0
       else if negb (DocumentCountQuota.user_all self)
               && negb (exists_ (filter_pk (scoped_users site self)
                                   (Some (user_pk u))))
       then 0
       else creations_by site self u).
Proof.
  unfold DocumentCountQuota._get_user_document_count, privileged.
  cbn [truthy attr_is_superuser attr_is_staff attr_pk bind].
  destruct (is_superuser u); cbn [bind orb]; [reflexivity|].
  destruct (is_staff u); cbn [bind]; [reflexivity|].
  destruct (DocumentCountQuota.user_all self); cbn [negb bind andb].
  - now rewrite document_count_actor.
  - destruct (exists_ _); cbn [negb]; [|reflexivity].
    now rewrite document_count_actor.
Qed.

(** [process] on a new document compares the count with the limit. *)
Lemma count_process_new (site : Site) (self : DocumentCountQuota.t)
  (kwargs : gmap string pyval) (instance : pyval) (pk : option Z) (n : Z) :
  kwargs !! "instance" = Some instance ->
  attr_pk instance = Return pk ->
  truthy_pk pk = false ->
  DocumentCountQuota._get_user_document_count site self (get kwargs "user")
  = Return n ->
  DocumentCountQuota.process site self kwargs
  = if DocumentCountQuota.documents_limit self <=? n
    then Raise (QuotaExceeded "Document size quota exceeded.")
    else Return tt.
Proof.
  intros Hi Hpk Hnew Hn. unfold DocumentCountQuota.process.
  rewrite (getitem_Some _ _ _ Hi). cbn [bind]. rewrite Hpk. cbn [bind].
  rewrite Hnew. cbn [negb]. rewrite Hn. cbn [bind].
  unfold DocumentCountQuota._allowed. now rewrite Z.geb_leb.
Qed.

Lemma raises_quota_branch (b : bool) (message : string) :
  raises_quota (if b then Raise (QuotaExceeded message) else Return tt) = b.
Proof. now destruct b. Qed.

Lemma length_filter_at_most_one {A : Type} (f : A -> bool) (l : list A) :
  (length (List.filter f l) <= 1)%nat ->
  length (List.filter f l) = if existsb f l then 1%nat else 0%nat.
Proof.
  induction l as [|x l IH]; simpl; [reflexivity|].
  destruct (f x); simpl; intros Hle.
  - destruct (List.filter f l); simpl in *; [reflexivity | lia].
  - now apply IH.
Qed.

(** When no document bears more than one creation record, the creation
    records of the scope are as many as the documents that bear one. *)
Lemma creations_by_anyone_documents (site : Site) (self : DocumentCountQuota.t) :
  Forall
    (fun d => (length (List.filter (is_creation site) (target_actions d)) <= 1)%nat)
    (documents site) ->
  creations_by_anyone site self = count (created_documents site self).
Proof.
  unfold creations_by_anyone, created_documents, creations, count.
  intros Hone. f_equal.
  induction (documents site) as [|d ds IH]; simpl; [reflexivity|].
  apply Forall_cons_iff in Hone as [Hd Hds].
  rewrite length_app, (IH Hds).
  destruct (type_in_scope site self (document_type_id d)); simpl; [|reflexivity].
  rewrite (length_filter_pointwise _ (is_creation site))
    by (intros a; apply andb_true_r).
  rewrite (length_filter_at_most_one _ _ Hd).
  now destruct (existsb (is_creation site) (target_actions d)).
Qed.

(** ** Properties of [process] *)

(** C1: with [documents_limit] = N, [process] on a new document raises exactly
    when the computed count is at least N; for an unprivileged actor of the
    scope the computed count is the number of matching creations by that
    actor, so N such creations make the attempt raise and N-1 do not. *)
Theorem count_quota_threshold (site : Site) (self : DocumentCountQuota.t)
  (kwargs : gmap string pyval) (d : Document) :
  kwargs !! "instance" = Some (PyDocument d) ->
  document_pk d = None ->
  (forall n,
     DocumentCountQuota._get_user_document_count site self (get kwargs "user")
     = Return n ->
     (raises_quota (DocumentCountQuota.process site self kwargs) = true
      <-> DocumentCountQuota.documents_limit self <= n)
     /\ (n < DocumentCountQuota.documents_limit self ->
         DocumentCountQuota.process site self kwargs = Return tt))
  /\ (forall u,
        kwargs !! "user" = Some (PyUser u) ->
        privileged u = false ->
        in_actor_scope site self u ->
        DocumentCountQuota._get_user_document_count site self (get kwargs "user")
        = Return (creations_by site self u)
        /\ (creations_by site self u = DocumentCountQuota.documents_limit self ->
            raises_quota (DocumentCountQuota.process site self kwargs) = true)
        /\ (creations_by site self u = DocumentCountQuota.documents_limit self - 1 ->
            DocumentCountQuota.process site self kwargs = Return tt)).
Proof.
  intros Hi Hnew.
  assert (Hgen : forall n,
     DocumentCountQuota._get_user_document_count site self (get kwargs "user")
     = Return n ->
     DocumentCountQuota.process site self kwargs
     = if DocumentCountQuota.documents_limit self <=? n
       then Raise (QuotaExceeded "Document size quota exceeded.")
       else Return tt).
  { intros n Hn. apply (count_process_new site self kwargs (PyDocument d) None n);
      [assumption | simpl; now rewrite Hnew | reflexivity | assumption]. }
  split.
  - intros n Hn. rewrite (Hgen n Hn). split.
    + rewrite raises_quota_branch. apply Z.leb_le.
    + intros Hlt. apply Z.leb_gt in Hlt. now rewrite Hlt.
  - intros u Hu Hpriv Hscope.
    assert (Hcount :
      DocumentCountQuota._get_user_document_count site self (get kwargs "user")
      = Return (creations_by site self u)).
    { rewrite (get_Some _ _ _ Hu), document_count_user, Hpriv.
      destruct Hscope as [Hall | Hexp].
      - simpl in Hall. now rewrite Hall.
      - apply scoped_users_spec in Hexp. rewrite Hexp.
        now rewrite andb_false_r. }
    split; [assumption|]. rewrite (Hgen _ Hcount). split; intros Heq.
    + rewrite raises_quota_branch. apply Z.leb_le. lia.
    + assert (Hlt : (DocumentCountQuota.documents_limit self
                     <=? creations_by site self u) = false)
        by (apply Z.leb_gt; lia).
      now rewrite Hlt.
Qed.

(** At the sample site alice has created one document: with a limit of one
    her next creation raises. *)
Lemma count_quota_threshold_witness :
  raises_quota
    (DocumentCountQuota.process Sample.site
       (DocumentCountQuota.__init__ true [] 1 [] true [])
       (Sample.signal_kwargs (PyDocument (Sample.new_document 1))
          (PyUser Sample.alice))) = true.
Proof.
  destruct (count_quota_threshold Sample.site
              (DocumentCountQuota.__init__ true [] 1 [] true [])
              (Sample.signal_kwargs (PyDocument (Sample.new_document 1))
                 (PyUser Sample.alice))
              (Sample.new_document 1) eq_refl eq_refl) as [_ Hactor].
  destruct (Hactor Sample.alice eq_refl eq_refl (or_introl eq_refl))
    as [_ [Hraise _]].
  apply Hraise. reflexivity.
Defined.

Lemma exists_filter_pk__in (pks : list Z) (pk : Z) :
  exists_ (List.filter (Z.eqb pk) pks) = pk__in pks pk.
Proof.
  unfold pk__in. induction pks as [|x pks IH]; simpl; [reflexivity|].
  destruct (pk =? x); simpl; [reflexivity | assumption].
Qed.

(** What [DocumentSizeQuota.process] does with a new version, branch by branch. *)
Lemma size_process_new (site : Site) (self : DocumentSizeQuota.t)
  (kwargs : gmap string pyval) (v : DocumentVersion) :
  kwargs !! "instance" = Some (PyDocumentVersion v) ->
  truthy_pk (version_pk v) = false ->
  DocumentSizeQuota.process site self kwargs
  = if Qle_bool (DocumentSizeQuota._allowed self) (inject_Z (file_size v)) then
      if type_in_scope site self (document_type_id (document v)) then
        match kwargs !! "user" with
        | None => Raise (KeyError "user")
        | Some PyNone =>
            if DocumentSizeQuota.user_all self
            then Raise (QuotaExceeded "Document size quota exceeded.")
            else Return tt
        | Some (PyUser u) =>
            if privileged u then Return tt
            else if DocumentSizeQuota.user_all self
                    || exists_ (filter_pk (scoped_users site self)
                                  (Some (user_pk u)))
            then Raise (QuotaExceeded "Document size quota exceeded.")
            else Return tt
        | Some _ => Raise (AttributeError "is_superuser")
        end
      else Return tt
    else Return tt.
Proof.
  intros Hi Hnew. unfold DocumentSizeQuota.process, type_in_scope.
  rewrite (getitem_Some _ _ _ Hi).
  cbn [bind attr_pk attr_file_size attr_document_type_pk].
  rewrite Hnew. cbn [negb].
  destruct (Qle_bool _ _); [|reflexivity].
  cbn [mixins.document_type_all DocumentSizeQuota.document_types_mixin].
  destruct (DocumentSizeQuota.document_type_all self); cbn [bind orb].
  - unfold getitem. destruct (kwargs !! "user") as [[|u|d|dv]|]; cbn; try reflexivity.
    + now destruct (DocumentSizeQuota.user_all self).
    + unfold privileged. destruct (is_superuser u); cbn; [reflexivity|].
      destruct (is_staff u); cbn; [reflexivity|].
      destruct (DocumentSizeQuota.user_all self); cbn; [reflexivity|].
      now destruct (exists_ _).
  - rewrite exists_filter_pk__in. destruct (pk__in _ _); [|reflexivity].
    unfold getitem. destruct (kwargs !! "user") as [[|u|d|dv]|]; cbn; try reflexivity.
    + now destruct (DocumentSizeQuota.user_all self).
    + unfold privileged. destruct (is_superuser u); cbn; [reflexivity|].
      destruct (is_staff u); cbn; [reflexivity|].
      destruct (DocumentSizeQuota.user_all self); cbn; [reflexivity|].
      now destruct (exists_ _).
Qed.

Lemma size_allowed_bytes (self : DocumentSizeQuota.t) :
  (DocumentSizeQuota._allowed self
   == DocumentSizeQuota.document_size_limit self * 1048576)%Q.
Proof. unfold DocumentSizeQuota._allowed. ring. Qed.

(** On an applicable new version the size quota raises exactly from the
    threshold on. *)
Lemma size_process_applicable (site : Site) (self : DocumentSizeQuota.t)
  (kwargs : gmap string pyval) (v : DocumentVersion) :
  kwargs !! "instance" = Some (PyDocumentVersion v) ->
  version_pk v = None ->
  type_in_scope site self (document_type_id (document v)) = true ->
  quota_applies_to site self (kwargs !! "user") ->
  DocumentSizeQuota.process site self kwargs
  = if Qle_bool (DocumentSizeQuota._allowed self) (inject_Z (file_size v))
    then Raise (QuotaExceeded "Document size quota exceeded.")
    else Return tt.
Proof.
  intros Hi Hnew Htype Happ.
  rewrite (size_process_new site self kwargs v Hi) by now rewrite Hnew.
  rewrite Htype. destruct (Qle_bool _ _); [|reflexivity].
  destruct (kwargs !! "user") as [[|u|d|dv]|]; simpl in Happ; try contradiction.
  - now rewrite Happ.
  - destruct Happ as [Hpriv [Hall | Hexp]]; rewrite Hpriv.
    + simpl in Hall. now rewrite Hall.
    + apply scoped_users_spec in Hexp. rewrite Hexp. now rewrite orb_true_r.
Qed.

(** C2: with [document_size_limit] = L megabytes the threshold is L * 1048576
    bytes and the comparison is greater-or-equal: on an applicable new
    version a file of exactly L * 1048576 bytes raises, one byte less does
    not. *)
Theorem size_quota_threshold (site : Site) (self : DocumentSizeQuota.t)
  (kwargs : gmap string pyval) (v : DocumentVersion) :
  kwargs !! "instance" = Some (PyDocumentVersion v) ->
  version_pk v = None ->
  type_in_scope site self (document_type_id (document v)) = true ->
  quota_applies_to site self (kwargs !! "user") ->
  (DocumentSizeQuota._allowed self
   == DocumentSizeQuota.document_size_limit self * 1048576)%Q
  /\ (raises_quota (DocumentSizeQuota.process site self kwargs) = true
      <-> (DocumentSizeQuota.document_size_limit self * 1048576
           <= inject_Z (file_size v))%Q)
  /\ ((inject_Z (file_size v)
       == DocumentSizeQuota.document_size_limit self * 1048576)%Q ->
      DocumentSizeQuota.process site self kwargs
      = Raise (QuotaExceeded "Document size quota exceeded."))
  /\ ((inject_Z (file_size v)
       == DocumentSizeQuota.document_size_limit self * 1048576 - 1)%Q ->
      DocumentSizeQuota.process site self kwargs = Return tt).
Proof.
  intros Hi Hnew Htype Happ.
  rewrite (size_process_applicable site self kwargs v Hi Hnew Htype Happ).
  pose proof (size_allowed_bytes self) as Hbytes.
  split; [assumption|]. split; [|split].
  - rewrite raises_quota_branch, Qle_bool_iff, Hbytes. reflexivity.
  - intros Heq.
    assert (Hle : Qle_bool (DocumentSizeQuota._allowed self)
                    (inject_Z (file_size v)) = true).
    { apply Qle_bool_iff. rewrite Hbytes, Heq. apply Qle_refl. }
    now rewrite Hle.
  - intros Heq.
    destruct (Qle_bool (DocumentSizeQuota._allowed self)
                (inject_Z (file_size v))) eqn:Hle; [|reflexivity].
    apply Qle_bool_iff in Hle. rewrite Hbytes, Heq in Hle.
    exfalso. revert Hle. apply Qlt_not_le.
    rewrite <- (Qplus_0_r (DocumentSizeQuota.document_size_limit self * 1048576)) at 2.
    apply Qplus_lt_r. reflexivity.
Qed.

(** A limit of 2 MB at the sample site: alice's upload of exactly 2097152
    bytes raises. *)
Lemma size_quota_threshold_witness :
  DocumentSizeQuota.process Sample.site
    (DocumentSizeQuota.__init__ 2 true [] [] true [])
    (Sample.signal_kwargs (PyDocumentVersion (Sample.new_version 2097152 1))
       (PyUser Sample.alice))
  = Raise (QuotaExceeded "Document size quota exceeded.").
Proof.
  destruct (size_quota_threshold Sample.site
              (DocumentSizeQuota.__init__ 2 true [] [] true [])
              (Sample.signal_kwargs
                 (PyDocumentVersion (Sample.new_version 2097152 1))
                 (PyUser Sample.alice))
              (Sample.new_version 2097152 1) eq_refl eq_refl eq_refl
              (conj eq_refl (or_introl eq_refl)))
    as [_ [_ [Hraise _]]].
  apply Hraise. reflexivity.
Defined.

(** C7: an instance that already has a primary key (a key the database has
    assigned, hence not zero) passes both backends unchecked: [process]
    returns whatever the site, the configuration and the other arguments. *)
Theorem process_skips_persisted (site : Site) (count_quota : DocumentCountQuota.t)
  (size_quota : DocumentSizeQuota.t) (kwargs : gmap string pyval)
  (instance : pyval) (pk : Z) :
  kwargs !! "instance" = Some instance ->
  attr_pk instance = Return (Some pk) ->
  pk <> 0 ->
  DocumentCountQuota.process site count_quota kwargs = Return tt
  /\ DocumentSizeQuota.process site size_quota kwargs = Return tt.
Proof.
  intros Hi Hpk Hnz.
  assert (Htruthy : truthy_pk (Some pk) = true).
  { simpl. apply negb_true_iff. now apply Z.eqb_neq. }
  unfold DocumentCountQuota.process, DocumentSizeQuota.process.
  rewrite (getitem_Some _ _ _ Hi). cbn [bind]. rewrite Hpk. cbn [bind].
  rewrite Htruthy. split; reflexivity.
Qed.

(** The stored document 10 of the sample site is saved again by alice, with
    both limits at zero. *)
Lemma process_skips_persisted_witness :
  DocumentCountQuota.process Sample.site
    (DocumentCountQuota.__init__ true [] 0 [] true [])
    (Sample.signal_kwargs (PyDocument (Sample.stored_document 10 1 7))
       (PyUser Sample.alice)) = Return tt
  /\ DocumentSizeQuota.process Sample.site
       (DocumentSizeQuota.__init__ 0 true [] [] true [])
       (Sample.signal_kwargs (PyDocument (Sample.stored_document 10 1 7))
          (PyUser Sample.alice)) = Return tt.
Proof.
  apply (process_skips_persisted Sample.site _ _ _
           (PyDocument (Sample.stored_document 10 1 7)) 10).
  - reflexivity.
  - reflexivity.
  - discriminate.
Defined.

(** C8: without an acting user (the key absent or bound to None) the count of
    a new document runs over the creation records of every document in the
    document type scope, whoever the actor, and [process] raises exactly
    when that count reaches [documents_limit]. *)
Theorem count_quota_global (site : Site) (self : DocumentCountQuota.t)
  (kwargs : gmap string pyval) (d : Document) :
  kwargs !! "instance" = Some (PyDocument d) ->
  document_pk d = None ->
  kwargs !! "user" = None \/ kwargs !! "user" = Some PyNone ->
  DocumentCountQuota._get_user_document_count site self (get kwargs "user")
  = Return (creations_by_anyone site self)
  /\ (raises_quota (DocumentCountQuota.process site self kwargs) = true
      <-> DocumentCountQuota.documents_limit self <= creations_by_anyone site self)
  /\ (creations_by_anyone site self < DocumentCountQuota.documents_limit self ->
      DocumentCountQuota.process site self kwargs = Return tt)
  /\ (Forall
        (fun d' =>
           (length (List.filter (is_creation site) (target_actions d')) <= 1)%nat)
        (documents site) ->
      creations_by_anyone site self = count (created_documents site self)).
Proof.
  intros Hi Hnew Huser.
  assert (Hget : get kwargs "user" = PyNone).
  { destruct Huser as [Hu | Hu]; [now apply get_None | now apply get_Some]. }
  assert (Hcount :
    DocumentCountQuota._get_user_document_count site self (get kwargs "user")
    = Return (creations_by_anyone site self)).
  { rewrite Hget. apply document_count_anyone. }
  split; [assumption|].
  rewrite (count_process_new site self kwargs (PyDocument d) None
             (creations_by_anyone site self) Hi);
    [| simpl; now rewrite Hnew | reflexivity | assumption].
  split; [|split].
  - rewrite raises_quota_branch. apply Z.leb_le.
  - intros Hlt. apply Z.leb_gt in Hlt. now rewrite Hlt.
  - apply creations_by_anyone_documents.
Qed.

(** A non-interactive creation at the sample site, which holds one created
    document, against a limit of one. *)
Lemma count_quota_global_witness :
  raises_quota
    (DocumentCountQuota.process Sample.site
       (DocumentCountQuota.__init__ true [] 1 [] true [])
       (Sample.signal_kwargs_no_user (PyDocument (Sample.new_document 1))))
  = true.
Proof.
  destruct (count_quota_global Sample.site
              (DocumentCountQuota.__init__ true [] 1 [] true [])
              (Sample.signal_kwargs_no_user (PyDocument (Sample.new_document 1)))
              (Sample.new_document 1) eq_refl eq_refl (or_introl eq_refl))
    as [_ [Hraise _]].
  apply Hraise. vm_compute. discriminate.
Defined.

(** C9: on a new version at or above the limit, of a type in scope, the size
    quota lets the save through when the signal carries no user and the
    backend is not scoped to all users; it raises only when the backend is
    scoped to all users or the user is in the explicit scope, and it does
    raise then unless the user is privileged. *)
Theorem size_quota_actor_gate (site : Site) (self : DocumentSizeQuota.t)
  (kwargs : gmap string pyval) (v : DocumentVersion) :
  kwargs !! "instance" = Some (PyDocumentVersion v) ->
  version_pk v = None ->
  Qle_bool (DocumentSizeQuota._allowed self) (inject_Z (file_size v)) = true ->
  type_in_scope site self (document_type_id (document v)) = true ->
  (kwargs !! "user" = Some PyNone ->
   DocumentSizeQuota.user_all self = false ->
   DocumentSizeQuota.process site self kwargs = Return tt)
  /\ (raises_quota (DocumentSizeQuota.process site self kwargs) = true ->
      DocumentSizeQuota.user_all self = true
      \/ exists u, kwargs !! "user" = Some (PyUser u)
                   /\ in_explicit_scope site self u)
  /\ (quota_applies_to site self (kwargs !! "user") ->
      DocumentSizeQuota.process site self kwargs
      = Raise (QuotaExceeded "Document size quota exceeded.")).
Proof.
  intros Hi Hnew Hsize Htype.
  split; [|split].
  - intros Hu Hall.
    rewrite (size_process_new site self kwargs v Hi) by now rewrite Hnew.
    now rewrite Hsize, Htype, Hu, Hall.
  - rewrite (size_process_new site self kwargs v Hi) by now rewrite Hnew.
    rewrite Hsize, Htype.
    destruct (kwargs !! "user") as [[|u|d|dv]|]; simpl; try discriminate.
    + destruct (DocumentSizeQuota.user_all self); [now left | discriminate].
    + destruct (privileged u); [discriminate|].
      destruct (DocumentSizeQuota.user_all self); [now left|]. simpl.
      destruct (exists_ _) eqn:Hex; [|discriminate].
      intros _. right. exists u. split; [reflexivity|].
      now apply scoped_users_spec.
  - intros Happ.
    rewrite (size_process_applicable site self kwargs v Hi Hnew Htype Happ).
    now rewrite Hsize.
Qed.

(** A non-interactive upload of 2 MB against a limit of 2 MB scoped to the
    user ids [[7]] goes through. *)
Lemma size_quota_actor_gate_witness :
  DocumentSizeQuota.process Sample.site
    (DocumentSizeQuota.__init__ 2 true [] [] false [7])
    (Sample.signal_kwargs (PyDocumentVersion (Sample.new_version 2097152 1))
       PyNone) = Return tt.
Proof.
  destruct (size_quota_actor_gate Sample.site
              (DocumentSizeQuota.__init__ 2 true [] [] false [7])
              (Sample.signal_kwargs
                 (PyDocumentVersion (Sample.new_version 2097152 1)) PyNone)
              (Sample.new_version 2097152 1) eq_refl eq_refl eq_refl eq_refl)
    as [Hallow _].
  apply Hallow; reflexivity.
Defined.

(** [DocumentCountQuota.process] reads the user with [kwargs.get]: an absent
    key behaves like a key bound to None and never raises KeyError. *)
Lemma count_process_absent_user (site : Site) (self : DocumentCountQuota.t)
  (kwargs : gmap string pyval) (instance : pyval) (pk : option Z) :
  kwargs !! "instance" = Some instance ->
  attr_pk instance = Return pk ->
  kwargs !! "user" = None ->
  DocumentCountQuota.process site self kwargs
  = DocumentCountQuota.process site self (<["user" := PyNone]> kwargs)
  /\ forall key,
       DocumentCountQuota.process site self kwargs <> Raise (KeyError key).
Proof.
  intros Hi Hpk Hu.
  assert (Hi' : <["user" := PyNone]> kwargs !! "instance" = Some instance).
  { rewrite lookup_insert_ne; [assumption | discriminate]. }
  unfold DocumentCountQuota.process.
  rewrite (getitem_Some _ _ _ Hi), (getitem_Some _ _ _ Hi').
  cbn [bind]. rewrite Hpk. cbn [bind].
  rewrite (get_None _ _ Hu), (get_Some _ _ _ (lookup_insert_eq kwargs "user" PyNone)).
  split; [reflexivity|]. intros key.
  destruct (truthy_pk pk); cbn [negb]; [discriminate|].
  rewrite document_count_anyone. cbn [bind].
  now destruct (_ >=? _).
Qed.

(** C10: once the size and type checks pass, [DocumentSizeQuota.process]
    subscripts the keyword arguments with ['user']: without that key it ends
    in a KeyError instead of allowing the save, while with the key bound to
    None it decides on [user_all]. [DocumentCountQuota.process] reads the
    key with [get] and treats an absent key like None. *)
Theorem size_quota_requires_user_key (site : Site) (self : DocumentSizeQuota.t)
  (kwargs : gmap string pyval) (v : DocumentVersion) :
  kwargs !! "instance" = Some (PyDocumentVersion v) ->
  version_pk v = None ->
  Qle_bool (DocumentSizeQuota._allowed self) (inject_Z (file_size v)) = true ->
  type_in_scope site self (document_type_id (document v)) = true ->
  kwargs !! "user" = None ->
  DocumentSizeQuota.process site self kwargs = Raise (KeyError "user")
  /\ DocumentSizeQuota.process site self (<["user" := PyNone]> kwargs)
     = (if DocumentSizeQuota.user_all self
        then Raise (QuotaExceeded "Document size quota exceeded.")
        else Return tt)
  /\ (forall (count_quota : DocumentCountQuota.t) (kw : gmap string pyval)
        (instance : pyval) (pk : option Z),
        kw !! "instance" = Some instance ->
        attr_pk instance = Return pk ->
        kw !! "user" = None ->
        DocumentCountQuota.process site count_quota kw
        = DocumentCountQuota.process site count_quota (<["user" := PyNone]> kw)
        /\ forall key,
             DocumentCountQuota.process site count_quota kw
             <> Raise (KeyError key)).
Proof.
  intros Hi Hnew Hsize Htype Hu.
  assert (Hi' : <["user" := PyNone]> kwargs !! "instance"
                = Some (PyDocumentVersion v)).
  { rewrite lookup_insert_ne; [assumption | discriminate]. }
  split; [|split].
  - rewrite (size_process_new site self kwargs v Hi) by now rewrite Hnew.
    now rewrite Hsize, Htype, Hu.
  - rewrite (size_process_new site self _ v Hi') by now rewrite Hnew.
    now rewrite Hsize, Htype, lookup_insert_eq.
  - intros count_quota kw instance pk. apply count_process_absent_user.
Qed.

(** An oversized upload at the sample site sent without any ['user'] key. *)
Lemma size_quota_requires_user_key_witness :
  DocumentSizeQuota.process Sample.site
    (DocumentSizeQuota.__init__ 2 true [] [] true [])
    (Sample.signal_kwargs_no_user
       (PyDocumentVersion (Sample.new_version 2097152 1)))
  = Raise (KeyError "user").
Proof.
  apply (size_quota_requires_user_key Sample.site
           (DocumentSizeQuota.__init__ 2 true [] [] true [])
           (Sample.signal_kwargs_no_user
              (PyDocumentVersion (Sample.new_version 2097152 1)))
           (Sample.new_version 2097152 1) eq_refl eq_refl eq_refl eq_refl eq_refl).
Defined.

(** ** Where the exemptions of the count quota stop *)

(** X9: A privileged or out-of-scope user is given a count of zero, which the
    comparison of [process] still sets against the limit. *)
Lemma count_quota_zero_usage (site : Site) (self : DocumentCountQuota.t)
  (kwargs : gmap string pyval) (d : Document) (u : User) :
  kwargs !! "instance" = Some (PyDocument d) ->
  document_pk d = None ->
  kwargs !! "user" = Some (PyUser u) ->
  privileged u = true
  \/ (DocumentCountQuota.user_all self = false /\ ~ in_explicit_scope site self u) ->
  DocumentCountQuota._get_user_document_count site self (PyUser u) = Return 0
  /\ (raises_quota (DocumentCountQuota.process site self kwargs) = true
      <-> DocumentCountQuota.documents_limit self <= 0).
Proof.
  intros Hi Hnew Hu Hzero.
  assert (Hcount :
    DocumentCountQuota._get_user_document_count site self (PyUser u) = Return 0).
  { rewrite document_count_user. destruct (privileged u); [reflexivity|].
    destruct Hzero as [Hpriv | [Hall Hout]]; [discriminate|].
    rewrite Hall. destruct (exists_ _) eqn:Hex; [|reflexivity].
    exfalso. apply Hout. now apply scoped_users_spec. }
  split; [assumption|].
  rewrite (count_process_new site self kwargs (PyDocument d) None 0 Hi);
    [| simpl; now rewrite Hnew | reflexivity
     | now rewrite (get_Some _ _ _ Hu)].
  rewrite raises_quota_branch. apply Z.leb_le.
Qed.

(** X10: The size quota never raises for a privileged user. *)
Lemma size_quota_exempts_privileged (site : Site) (self : DocumentSizeQuota.t)
  (kwargs : gmap string pyval) (u : User) :
  kwargs !! "user" = Some (PyUser u) ->
  privileged u = true ->
  raises_quota (DocumentSizeQuota.process site self kwargs) = false.
Proof.
  intros Hu Hpriv.
  destruct (kwargs !! "instance") as [[|iu|d|v]|] eqn:Hi.
  - unfold DocumentSizeQuota.process. now rewrite (getitem_Some _ _ _ Hi).
  - unfold DocumentSizeQuota.process. rewrite (getitem_Some _ _ _ Hi).
    cbn [bind attr_pk]. now destruct (truthy_pk _).
  - unfold DocumentSizeQuota.process. rewrite (getitem_Some _ _ _ Hi).
    cbn [bind attr_pk]. now destruct (truthy_pk _).
  - destruct (truthy_pk (version_pk v)) eqn:Hpk.
    + unfold DocumentSizeQuota.process. rewrite (getitem_Some _ _ _ Hi).
      cbn [bind attr_pk]. now rewrite Hpk.
    + rewrite (size_process_new site self kwargs v Hi Hpk), Hu, Hpriv.
      destruct (Qle_bool _ _); [|reflexivity].
      now destruct (type_in_scope _ _ _).
  - unfold DocumentSizeQuota.process. now rewrite (getitem_None _ _ Hi).
Qed.

(** X11: The size quota never raises for a version whose document type lies
    outside the document type scope. *)
Lemma size_quota_type_exclusion (site : Site) (self : DocumentSizeQuota.t)
  (kwargs : gmap string pyval) (v : DocumentVersion) :
  kwargs !! "instance" = Some (PyDocumentVersion v) ->
  type_in_scope site self (document_type_id (document v)) = false ->
  DocumentSizeQuota.process site self kwargs = Return tt.
Proof.
  intros Hi Htype.
  destruct (truthy_pk (version_pk v)) eqn:Hpk.
  - unfold DocumentSizeQuota.process. rewrite (getitem_Some _ _ _ Hi).
    cbn [bind attr_pk]. now rewrite Hpk.
  - rewrite (size_process_new site self kwargs v Hi Hpk), Htype.
    now destruct (Qle_bool _ _).
Qed.

(** Every QuotaExceeded error of [DocumentCountQuota.process] carries the text
    of the size quota. *)
Lemma count_quota_message (site : Site) (self : DocumentCountQuota.t)
  (kwargs : gmap string pyval) (message : string) :
  DocumentCountQuota.process site self kwargs = Raise (QuotaExceeded message) ->
  message = "Document size quota exceeded.".
Proof.
  unfold DocumentCountQuota.process, getitem.
  destruct (kwargs !! "instance") as [instance|]; cbn [bind]; [|discriminate].
  destruct (attr_pk instance) as [pk|e] eqn:Hpk; cbn [bind].
  - destruct (truthy_pk pk); cbn [negb]; [discriminate|].
    destruct (get kwargs "user") as [|u|d|dv].
    + rewrite document_count_anyone. cbn [bind].
      destruct (_ >=? _); [|discriminate]. now intros [= <-].
    + rewrite document_count_user. cbn [bind].
      destruct (_ >=? _); [|discriminate]. now intros [= <-].
    + discriminate.
    + discriminate.
  - destruct instance; simpl in Hpk; try discriminate.
    injection Hpk as <-. discriminate.
Qed.

(** C3: a superuser is not exempt from a count quota whose limit is zero. At
    the sample site the privileged user root creates a document under
    [documents_limit] = 0 and [process] raises QuotaExceeded: the count of
    zero handed to privileged users still reaches the limit. *)
Theorem count_quota_blocks_privileged_at_zero :
  privileged Sample.root = true
  /\ DocumentCountQuota.process Sample.site
       (DocumentCountQuota.__init__ true [] 0 [] true [])
       (Sample.signal_kwargs (PyDocument (Sample.new_document 1))
          (PyUser Sample.root))
     = Raise (QuotaExceeded "Document size quota exceeded.").
Proof. split; reflexivity. Qed.

(** C4: a user outside the explicit scope is not exempt from a count quota
    whose limit is zero. The quota is scoped to the user ids [[8]] and to no
    group; alice, whose key is 7, creates a document under
    [documents_limit] = 0 and [process] raises QuotaExceeded. *)
Theorem count_quota_blocks_out_of_scope_at_zero :
  ~ in_explicit_scope Sample.site
      (DocumentCountQuota.__init__ true [] 0 [] false [8]) Sample.alice
  /\ DocumentCountQuota.process Sample.site
       (DocumentCountQuota.__init__ true [] 0 [] false [8])
       (Sample.signal_kwargs (PyDocument (Sample.new_document 1))
          (PyUser Sample.alice))
     = Raise (QuotaExceeded "Document size quota exceeded.").
Proof.
  split; [|reflexivity].
  rewrite <- scoped_users_spec. vm_compute. discriminate.
Qed.

(** C5: the count quota does not look at the type of the candidate document.
    The quota is scoped to the document type 1 with a limit of one, the site
    holds one document of type 1 created by alice, and alice's new document
    of type 2, a type outside the scope, makes [process] raise. *)
Theorem count_quota_ignores_candidate_type :
  type_in_scope Sample.site
    (DocumentCountQuota.__init__ false [1] 1 [] true []) 2 = false
  /\ DocumentCountQuota.process Sample.site
       (DocumentCountQuota.__init__ false [1] 1 [] true [])
       (Sample.signal_kwargs (PyDocument (Sample.new_document 2))
          (PyUser Sample.alice))
     = Raise (QuotaExceeded "Document size quota exceeded.").
Proof. split; reflexivity. Qed.

(** C6: the error raised by [DocumentCountQuota.process] does not carry the
    class's own [error_message], "Document count quota exceeded.": at the
    sample site the blocked creation raises QuotaExceeded with the text of
    the size quota. *)
Theorem count_quota_raises_size_message :
  DocumentCountQuota.process Sample.site
    (DocumentCountQuota.__init__ true [] 1 [] true [])
    (Sample.signal_kwargs (PyDocument (Sample.new_document 1))
       (PyUser Sample.alice))
  = Raise (QuotaExceeded "Document size quota exceeded.")
  /\ DocumentCountQuota.process Sample.site
       (DocumentCountQuota.__init__ true [] 1 [] true [])
       (Sample.signal_kwargs (PyDocument (Sample.new_document 1))
          (PyUser Sample.alice))
     <> Raise (QuotaExceeded DocumentCountQuota.error_message).
Proof. split; [reflexivity | discriminate]. Qed.

(** ** Further properties of the count quota *)

(** For a missing user, None or a user object the count query answers, and
    with a number that is not negative. *)
Lemma document_count_nonnegative (site : Site) (self : DocumentCountQuota.t)
  (kwargs : gmap string pyval) :
  user_argument kwargs ->
  exists n,
    DocumentCountQuota._get_user_document_count site self (get kwargs "user")
    = Return n /\ 0 <= n.
Proof.
  intros [Hu | [Hu | [u Hu]]].
  - rewrite (get_None _ _ Hu), document_count_anyone. eexists. split; [reflexivity|].
    unfold creations_by_anyone, count. lia.
  - rewrite (get_Some _ _ _ Hu), document_count_anyone. eexists. split; [reflexivity|].
    unfold creations_by_anyone, count. lia.
  - rewrite (get_Some _ _ _ Hu), document_count_user. eexists. split; [reflexivity|].
    destruct (privileged u); [lia|]. destruct (_ && _); [lia|].
    unfold creations_by, count. lia.
Qed.

(** X1: How [DocumentCountQuota.process] ends: a missing ['instance'] key is a
    KeyError, an instance of None an AttributeError, and with an instance
    that has a key and a user argument that is absent, None or a user the
    call either returns or raises QuotaExceeded, nothing else. *)
Theorem count_quota_outcomes (site : Site) (self : DocumentCountQuota.t)
  (kwargs : gmap string pyval) :
  (kwargs !! "instance" = None ->
   DocumentCountQuota.process site self kwargs = Raise (KeyError "instance"))
  /\ (kwargs !! "instance" = Some PyNone ->
      DocumentCountQuota.process site self kwargs = Raise (AttributeError "pk"))
  /\ (forall instance pk,
        kwargs !! "instance" = Some instance ->
        attr_pk instance = Return pk ->
        user_argument kwargs ->
        DocumentCountQuota.process site self kwargs = Return tt
        \/ DocumentCountQuota.process site self kwargs
           = Raise (QuotaExceeded "Document size quota exceeded.")).
Proof.
  split; [|split].
  - intros Hi. unfold DocumentCountQuota.process. now rewrite (getitem_None _ _ Hi).
  - intros Hi. unfold DocumentCountQuota.process. now rewrite (getitem_Some _ _ _ Hi).
  - intros instance pk Hi Hpk Huser.
    destruct (document_count_nonnegative site self kwargs Huser) as [n [Hn _]].
    unfold DocumentCountQuota.process.
    rewrite (getitem_Some _ _ _ Hi). cbn [bind]. rewrite Hpk. cbn [bind].
    destruct (truthy_pk pk); cbn [negb]; [now left|].
    rewrite Hn. cbn [bind]. destruct (_ >=? _); [now right | now left].
Qed.

(** X2: A limit of zero or less blocks every creation: whoever the user is
    (absent, None, privileged, outside the scope), the count is at least
    zero and so reaches the limit. *)
Theorem count_quota_nonpositive_limit (site : Site) (self : DocumentCountQuota.t)
  (kwargs : gmap string pyval) (instance : pyval) (pk : option Z) :
  kwargs !! "instance" = Some instance ->
  attr_pk instance = Return pk ->
  truthy_pk pk = false ->
  user_argument kwargs ->
  DocumentCountQuota.documents_limit self <= 0 ->
  DocumentCountQuota.process site self kwargs
  = Raise (QuotaExceeded "Document size quota exceeded.").
Proof.
  intros Hi Hpk Hnew Huser Hlimit.
  destruct (document_count_nonnegative site self kwargs Huser) as [n [Hn Hpos]].
  rewrite (count_process_new site self kwargs instance pk n Hi Hpk Hnew Hn).
  assert (Hle : (DocumentCountQuota.documents_limit self <=? n) = true)
    by (apply Z.leb_le; lia).
  now rewrite Hle.
Qed.

(** A limit of -3 at the sample site, no user in the signal. *)
Lemma count_quota_nonpositive_limit_witness :
  DocumentCountQuota.process Sample.site
    (DocumentCountQuota.__init__ true [] (-3) [] true [])
    (Sample.signal_kwargs_no_user (PyDocument (Sample.new_document 1)))
  = Raise (QuotaExceeded "Document size quota exceeded.").
Proof.
  apply (count_quota_nonpositive_limit Sample.site
           (DocumentCountQuota.__init__ true [] (-3) [] true [])
           (Sample.signal_kwargs_no_user (PyDocument (Sample.new_document 1)))
           (PyDocument (Sample.new_document 1)) None
           eq_refl eq_refl eq_refl (or_introl eq_refl)).
  vm_compute. discriminate.
Defined.

(** X3: The count quota reads nothing of the instance but its key: two unsaved
    instances, whatever their kind, type or content, end the same way. *)
Theorem count_quota_instance_blind (site : Site) (self : DocumentCountQuota.t)
  (kwargs : gmap string pyval) (instance1 instance2 : pyval)
  (pk1 pk2 : option Z) :
  attr_pk instance1 = Return pk1 ->
  attr_pk instance2 = Return pk2 ->
  truthy_pk pk1 = truthy_pk pk2 ->
  DocumentCountQuota.process site self (<["instance" := instance1]> kwargs)
  = DocumentCountQuota.process site self (<["instance" := instance2]> kwargs).
Proof.
  intros Hpk1 Hpk2 Hsame. unfold DocumentCountQuota.process.
  rewrite !(getitem_Some _ _ _ (lookup_insert_eq kwargs "instance" _)).
  cbn [bind]. rewrite Hpk1, Hpk2. cbn [bind]. rewrite Hsame.
  assert (Hget : forall i : pyval,
            get (<["instance" := i]> kwargs) "user" = get kwargs "user").
  { intros i. unfold get. rewrite lookup_insert_ne; [reflexivity | discriminate]. }
  now rewrite !Hget.
Qed.

(** Alice's new document of type 1 and her new document of type 2 meet the
    same fate under a quota scoped to type 1. *)
Lemma count_quota_instance_blind_witness :
  DocumentCountQuota.process Sample.site
    (DocumentCountQuota.__init__ false [1] 1 [] true [])
    (<["instance" := PyDocument (Sample.new_document 1)]>
       (Sample.signal_kwargs PyNone (PyUser Sample.alice)))
  = DocumentCountQuota.process Sample.site
      (DocumentCountQuota.__init__ false [1] 1 [] true [])
      (<["instance" := PyDocument (Sample.new_document 2)]>
         (Sample.signal_kwargs PyNone (PyUser Sample.alice))).
Proof.
  apply (count_quota_instance_blind Sample.site
           (DocumentCountQuota.__init__ false [1] 1 [] true [])
           (Sample.signal_kwargs PyNone (PyUser Sample.alice))
           (PyDocument (Sample.new_document 1))
           (PyDocument (Sample.new_document 2)) None None
           eq_refl eq_refl eq_refl).
Defined.

(** The creation records once further documents are stored: those of the new
    documents, then those the site already had. *)
Lemma creations_store (site : Site) (self : DocumentCountQuota.t)
  (by_actor : Action -> bool) (new_documents : list Document) :
  creations (store_documents site new_documents) self by_actor
  = (flat_map
       (fun d =>
          if type_in_scope site self (document_type_id d) then
            List.filter (fun a => is_creation site a && by_actor a)
              (target_actions d)
          else [])
       new_documents
     ++ creations site self by_actor)%list.
Proof.
  unfold creations. cbn [store_documents documents].
  rewrite flat_map_app. reflexivity.
Qed.

Lemma creations_by_store_irrelevant (site : Site) (self : DocumentCountQuota.t)
  (u : User) (new_documents : list Document) :
  Forall (irrelevant_to site self u) new_documents ->
  creations_by (store_documents site new_documents) self u
  = creations_by site self u.
Proof.
  intros Hnew. unfold creations_by.
  change (attributed_to (store_documents site new_documents) u)
    with (attributed_to site u).
  rewrite creations_store. unfold count. rewrite length_app.
  assert (Hnone : forall ds, Forall (irrelevant_to site self u) ds ->
    length
      (flat_map
         (fun d =>
            if type_in_scope site self (document_type_id d) then
              List.filter (fun a => is_creation site a && attributed_to site u a)
                (target_actions d)
            else [])
         ds) = 0%nat).
  { induction ds as [|d ds IH]; intros Hds; simpl; [reflexivity|].
    apply Forall_cons_iff in Hds as [Hd Hds]. rewrite length_app, (IH Hds).
    destruct Hd as [Htype | Hactions].
    - now rewrite Htype.
    - destruct (type_in_scope site self (document_type_id d)); [|reflexivity].
      induction (target_actions d) as [|a l IHl]; simpl; [reflexivity|].
      apply Forall_cons_iff in Hactions as [Ha Hl]. rewrite Ha. now apply IHl. }
  now rewrite (Hnone _ Hnew).
Qed.

Lemma creations_by_store_created (site : Site) (self : DocumentCountQuota.t)
  (u : User) (new_documents : list Document) :
  Forall (created_in_scope_by site self u) new_documents ->
  creations_by (store_documents site new_documents) self u
  = creations_by site self u + Z.of_nat (length new_documents).
Proof.
  intros Hnew. unfold creations_by.
  change (attributed_to (store_documents site new_documents) u)
    with (attributed_to site u).
  rewrite creations_store. unfold count. rewrite length_app.
  assert (Hall : forall ds, Forall (created_in_scope_by site self u) ds ->
    length
      (flat_map
         (fun d =>
            if type_in_scope site self (document_type_id d) then
              List.filter (fun a => is_creation site a && attributed_to site u a)
                (target_actions d)
            else [])
         ds) = length ds).
  { induction ds as [|d ds IH]; intros Hds; simpl; [reflexivity|].
    apply Forall_cons_iff in Hds as [[Htype Hactions] Hds].
    rewrite length_app, (IH Hds), Htype, Hactions. simpl.
    unfold is_creation, attributed_to, creation_record. simpl.
    now rewrite String.eqb_refl, !Z.eqb_refl. }
  rewrite (Hall _ Hnew). lia.
Qed.

(** X4: The count of a user is the user's own: storing documents of types
    outside the scope, or documents that bear no creation record of the
    user, changes nothing to what [process] answers that user. *)
Theorem count_quota_other_documents (site : Site) (self : DocumentCountQuota.t)
  (kwargs : gmap string pyval) (u : User) (new_documents : list Document) :
  kwargs !! "user" = Some (PyUser u) ->
  Forall (irrelevant_to site self u) new_documents ->
  DocumentCountQuota.process (store_documents site new_documents) self kwargs
  = DocumentCountQuota.process site self kwargs.
Proof.
  intros Hu Hnew. unfold DocumentCountQuota.process.
  rewrite (get_Some _ _ _ Hu), !document_count_user.
  change (scoped_users (store_documents site new_documents) self)
    with (scoped_users site self).
  now rewrite (creations_by_store_irrelevant site self u new_documents Hnew).
Qed.

(** Bob stores a document; alice's creation is judged as before. *)
Lemma count_quota_other_documents_witness :
  DocumentCountQuota.process
    (store_documents Sample.site [Sample.stored_document 11 1 8])
    (DocumentCountQuota.__init__ true [] 2 [] true [])
    (Sample.signal_kwargs (PyDocument (Sample.new_document 1))
       (PyUser Sample.alice))
  = DocumentCountQuota.process Sample.site
      (DocumentCountQuota.__init__ true [] 2 [] true [])
      (Sample.signal_kwargs (PyDocument (Sample.new_document 1))
         (PyUser Sample.alice)).
Proof.
  apply (count_quota_other_documents Sample.site
           (DocumentCountQuota.__init__ true [] 2 [] true [])
           (Sample.signal_kwargs (PyDocument (Sample.new_document 1))
              (PyUser Sample.alice))
           Sample.alice [Sample.stored_document 11 1 8] eq_refl).
  constructor; [|constructor].
  right. constructor; [reflexivity | constructor].
Defined.

(** X5: Every stored creation by an unprivileged user of the scope adds one to
    the user's count: after [k] further creations the next attempt raises
    exactly when the earlier count plus [k] has reached the limit. *)
Theorem count_quota_sequential_creations (site : Site)
  (self : DocumentCountQuota.t) (kwargs : gmap string pyval) (d : Document)
  (u : User) (new_documents : list Document) :
  kwargs !! "instance" = Some (PyDocument d) ->
  document_pk d = None ->
  kwargs !! "user" = Some (PyUser u) ->
  privileged u = false ->
  in_actor_scope site self u ->
  Forall (created_in_scope_by site self u) new_documents ->
  (raises_quota
     (DocumentCountQuota.process (store_documents site new_documents) self kwargs)
   = true
   <-> DocumentCountQuota.documents_limit self
       <= creations_by site self u + Z.of_nat (length new_documents))
  /\ (creations_by site self u + Z.of_nat (length new_documents)
      < DocumentCountQuota.documents_limit self ->
      DocumentCountQuota.process (store_documents site new_documents) self kwargs
      = Return tt).
Proof.
  intros Hi Hnew Hu Hpriv Hscope Hdocs.
  assert (Hcount :
    DocumentCountQuota._get_user_document_count
      (store_documents site new_documents) self (get kwargs "user")
    = Return (creations_by site self u + Z.of_nat (length new_documents))).
  { rewrite (get_Some _ _ _ Hu), document_count_user, Hpriv.
    change (scoped_users (store_documents site new_documents) self)
      with (scoped_users site self).
    rewrite (creations_by_store_created site self u new_documents Hdocs).
    destruct Hscope as [Hall | Hexp].
    - simpl in Hall. now rewrite Hall.
    - apply scoped_users_spec in Hexp. rewrite Hexp. now rewrite andb_false_r. }
  rewrite (count_process_new (store_documents site new_documents) self kwargs
             (PyDocument d) None
             (creations_by site self u + Z.of_nat (length new_documents)) Hi);
    [| simpl; now rewrite Hnew | reflexivity | exact Hcount].
  split.
  - rewrite raises_quota_branch. apply Z.leb_le.
  - intros Hlt. apply Z.leb_gt in Hlt. now rewrite Hlt.
Qed.

(** Alice has one document at the sample site; after two more creations of
    hers a limit of three blocks the next attempt. *)
Lemma count_quota_sequential_creations_witness :
  raises_quota
    (DocumentCountQuota.process
       (store_documents Sample.site
          [Sample.stored_document 12 1 7; Sample.stored_document 11 2 7])
       (DocumentCountQuota.__init__ true [] 3 [] true [])
       (Sample.signal_kwargs (PyDocument (Sample.new_document 1))
          (PyUser Sample.alice))) = true.
Proof.
  destruct (count_quota_sequential_creations Sample.site
              (DocumentCountQuota.__init__ true [] 3 [] true [])
              (Sample.signal_kwargs (PyDocument (Sample.new_document 1))
                 (PyUser Sample.alice))
              (Sample.new_document 1) Sample.alice
              [Sample.stored_document 12 1 7; Sample.stored_document 11 2 7]
              eq_refl eq_refl eq_refl eq_refl (or_introl eq_refl))
    as [[_ Hraise] _].
  - repeat (constructor; [split; reflexivity|]). constructor.
  - apply Hraise. vm_compute. discriminate.
Defined.

Lemma length_flat_map_le {A B C : Type} (f : A -> list B) (g : A -> list C) l :
  (forall x, (length (f x) <= length (g x))%nat) ->
  (length (flat_map f l) <= length (flat_map g l))%nat.
Proof.
  intros Hfg. induction l as [|x l IH]; simpl; [lia|].
  rewrite !length_app. specialize (Hfg x). lia.
Qed.

(** An explicit document type scope selects a part of the creation records
    that the scope of all types selects. *)
Lemma creations_narrowed (site : Site) (by_actor : Action -> bool)
  (document_type_ids : list Z) (documents_limit : Z) (group_ids : list Z)
  (user_all : bool) (user_ids : list Z) :
  count (creations site
           (DocumentCountQuota.__init__ false document_type_ids documents_limit
              group_ids user_all user_ids) by_actor)
  <= count (creations site
              (DocumentCountQuota.__init__ true document_type_ids documents_limit
                 group_ids user_all user_ids) by_actor).
Proof.
  unfold count, creations. apply inj_le. apply length_flat_map_le. intros d.
  unfold type_in_scope. cbn [mixins.document_type_all
    DocumentCountQuota.document_types_mixin DocumentCountQuota.document_type_all orb].
  destruct (pk__in _ _); simpl; lia.
Qed.

(** X6: Raising [documents_limit] never blocks a creation that the lower limit
    lets through: what raises under the higher limit raises under the lower. *)
Theorem count_quota_limit_monotone (site : Site) (document_type_all : bool)
  (document_type_ids : list Z) (lower higher : Z) (group_ids : list Z)
  (user_all : bool) (user_ids : list Z) (kwargs : gmap string pyval) :
  lower <= higher ->
  raises_quota
    (DocumentCountQuota.process site
       (DocumentCountQuota.__init__ document_type_all document_type_ids higher
          group_ids user_all user_ids) kwargs) = true ->
  raises_quota
    (DocumentCountQuota.process site
       (DocumentCountQuota.__init__ document_type_all document_type_ids lower
          group_ids user_all user_ids) kwargs) = true.
Proof.
  intros Hle. unfold DocumentCountQuota.process, getitem.
  destruct (kwargs !! "instance") as [instance|]; cbn [bind]; [|discriminate].
  destruct (attr_pk instance) as [pk|e]; cbn [bind]; [|trivial].
  destruct (truthy_pk pk); cbn [negb]; [discriminate|].
  change (DocumentCountQuota._get_user_document_count site
            (DocumentCountQuota.__init__ document_type_all document_type_ids
               higher group_ids user_all user_ids) (get kwargs "user"))
    with (DocumentCountQuota._get_user_document_count site
            (DocumentCountQuota.__init__ document_type_all document_type_ids
               lower group_ids user_all user_ids) (get kwargs "user")).
  destruct (DocumentCountQuota._get_user_document_count _ _ _) as [n|e];
    cbn [bind]; [|trivial].
  unfold DocumentCountQuota._allowed. cbn [DocumentCountQuota.documents_limit].
  rewrite !Z.geb_leb.
  destruct (higher <=? n) eqn:Hhigh; [|discriminate].
  apply Z.leb_le in Hhigh.
  assert (Hlow : (lower <=? n) = true) by (apply Z.leb_le; lia).
  now rewrite Hlow.
Qed.

(** At the sample site a limit of one blocks alice, and so does the lower
    limit of zero. *)
Lemma count_quota_limit_monotone_witness :
  raises_quota
    (DocumentCountQuota.process Sample.site
       (DocumentCountQuota.__init__ true [] 0 [] true [])
       (Sample.signal_kwargs (PyDocument (Sample.new_document 1))
          (PyUser Sample.alice))) = true.
Proof.
  apply (count_quota_limit_monotone Sample.site true [] 0 1 [] true []
           (Sample.signal_kwargs (PyDocument (Sample.new_document 1))
              (PyUser Sample.alice))).
  - vm_compute. discriminate.
  - reflexivity.
Defined.

(** X7: Narrowing the document types never blocks more: a creation that raises
    under an explicit document type scope raises under the scope of all
    document types, the rest of the configuration being equal. *)
Theorem count_quota_type_scope_narrowing (site : Site)
  (document_type_ids : list Z) (documents_limit : Z) (group_ids : list Z)
  (user_all : bool) (user_ids : list Z) (kwargs : gmap string pyval) :
  raises_quota
    (DocumentCountQuota.process site
       (DocumentCountQuota.__init__ false document_type_ids documents_limit
          group_ids user_all user_ids) kwargs) = true ->
  raises_quota
    (DocumentCountQuota.process site
       (DocumentCountQuota.__init__ true document_type_ids documents_limit
          group_ids user_all user_ids) kwargs) = true.
Proof.
  unfold DocumentCountQuota.process, getitem.
  destruct (kwargs !! "instance") as [instance|]; cbn [bind]; [|discriminate].
  destruct (attr_pk instance) as [pk|e]; cbn [bind]; [|trivial].
  destruct (truthy_pk pk); cbn [negb]; [discriminate|].
  unfold DocumentCountQuota._allowed. cbn [DocumentCountQuota.documents_limit].
  destruct (get kwargs "user") as [|u|d|dv]; try discriminate.
  - rewrite !document_count_anyone. cbn [bind]. rewrite !Z.geb_leb.
    pose proof (creations_narrowed site (fun _ => true) document_type_ids
                  documents_limit group_ids user_all user_ids) as Hnarrow.
    unfold creations_by_anyone.
    destruct (documents_limit <=? count (creations site
      (DocumentCountQuota.__init__ false _ _ _ _ _) _)) eqn:Hsome; [|discriminate].
    apply Z.leb_le in Hsome. intros _.
    assert (Hall : (documents_limit <=? count (creations site
      (DocumentCountQuota.__init__ true document_type_ids documents_limit
         group_ids user_all user_ids) (fun _ => true))) = true)
      by (apply Z.leb_le; lia).
    now rewrite Hall.
  - rewrite !document_count_user. cbn [bind]. rewrite !Z.geb_leb.
    change (scoped_users site
              (DocumentCountQuota.__init__ false document_type_ids
                 documents_limit group_ids user_all user_ids))
      with (scoped_users site
              (DocumentCountQuota.__init__ true document_type_ids
                 documents_limit group_ids user_all user_ids)).
    cbn [DocumentCountQuota.user_all].
    destruct (privileged u); [trivial|].
    destruct (negb user_all && _); [trivial|].
    pose proof (creations_narrowed site (attributed_to site u) document_type_ids
                  documents_limit group_ids user_all user_ids) as Hnarrow.
    unfold creations_by.
    destruct (documents_limit <=? count (creations site
      (DocumentCountQuota.__init__ false _ _ _ _ _) _)) eqn:Hsome; [|discriminate].
    apply Z.leb_le in Hsome. intros _.
    assert (Hall : (documents_limit <=? count (creations site
      (DocumentCountQuota.__init__ true document_type_ids documents_limit
         group_ids user_all user_ids) (attributed_to site u))) = true)
      by (apply Z.leb_le; lia).
    now rewrite Hall.
Qed.

(** Alice is blocked at the sample site under the scope of type 1 with a
    limit of one, hence also under the scope of all types. *)
Lemma count_quota_type_scope_narrowing_witness :
  raises_quota
    (DocumentCountQuota.process Sample.site
       (DocumentCountQuota.__init__ true [1] 1 [] true [])
       (Sample.signal_kwargs (PyDocument (Sample.new_document 1))
          (PyUser Sample.alice))) = true.
Proof.
  apply (count_quota_type_scope_narrowing Sample.site [1] 1 [] true []
           (Sample.signal_kwargs (PyDocument (Sample.new_document 1))
              (PyUser Sample.alice))).
  reflexivity.
Defined.


(** At the sample site root is privileged: under a limit of one, which the
    stored document by alice would reach, root's count is zero. *)
Lemma count_quota_zero_usage_witness :
  DocumentCountQuota._get_user_document_count Sample.site
    (DocumentCountQuota.__init__ true [] 1 [] true []) (PyUser Sample.root)
  = Return 0.
Proof.
  apply (count_quota_zero_usage Sample.site
           (DocumentCountQuota.__init__ true [] 1 [] true [])
           (Sample.signal_kwargs (PyDocument (Sample.new_document 1))
              (PyUser Sample.root))
           (Sample.new_document 1) Sample.root
           eq_refl eq_refl eq_refl (or_introl eq_refl)).
Defined.

(** ** Further properties of the size quota *)

(** Root uploads 2 MB against a limit of 2 MB scoped to all users. *)
Lemma size_quota_exempts_privileged_witness :
  raises_quota
    (DocumentSizeQuota.process Sample.site
       (DocumentSizeQuota.__init__ 2 true [] [] true [])
       (Sample.signal_kwargs (PyDocumentVersion (Sample.new_version 2097152 1))
          (PyUser Sample.root))) = false.
Proof.
  apply (size_quota_exempts_privileged Sample.site
           (DocumentSizeQuota.__init__ 2 true [] [] true [])
           (Sample.signal_kwargs
              (PyDocumentVersion (Sample.new_version 2097152 1))
              (PyUser Sample.root))
           Sample.root eq_refl eq_refl).
Defined.

(** Alice uploads 2 MB to a document of type 2 against a limit of 2 MB
    scoped to the document type 1. *)
Lemma size_quota_type_exclusion_witness :
  DocumentSizeQuota.process Sample.site
    (DocumentSizeQuota.__init__ 2 false [1] [] true [])
    (Sample.signal_kwargs (PyDocumentVersion (Sample.new_version 2097152 2))
       (PyUser Sample.alice)) = Return tt.
Proof.
  apply (size_quota_type_exclusion Sample.site
           (DocumentSizeQuota.__init__ 2 false [1] [] true [])
           (Sample.signal_kwargs
              (PyDocumentVersion (Sample.new_version 2097152 2))
              (PyUser Sample.alice))
           (Sample.new_version 2097152 2) eq_refl eq_refl).
Defined.

(** [DocumentSizeQuota.process] on a version, whatever its key. *)
Lemma size_process_version (site : Site) (self : DocumentSizeQuota.t)
  (kwargs : gmap string pyval) (v : DocumentVersion) :
  kwargs !! "instance" = Some (PyDocumentVersion v) ->
  DocumentSizeQuota.process site self kwargs
  = if truthy_pk (version_pk v) then Return tt
    else if Qle_bool (DocumentSizeQuota._allowed self) (inject_Z (file_size v)) then
      if type_in_scope site self (document_type_id (document v)) then
        match kwargs !! "user" with
        | None => Raise (KeyError "user")
        | Some PyNone =>
            if DocumentSizeQuota.user_all self
            then Raise (QuotaExceeded "Document size quota exceeded.")
            else Return tt
        | Some (PyUser u) =>
            if privileged u then Return tt
            else if DocumentSizeQuota.user_all self
                    || exists_ (filter_pk (scoped_users site self)
                                  (Some (user_pk u)))
            then Raise (QuotaExceeded "Document size quota exceeded.")
            else Return tt
        | Some _ => Raise (AttributeError "is_superuser")
        end
      else Return tt
    else Return tt.
Proof.
  intros Hi. destruct (truthy_pk (version_pk v)) eqn:Hpk.
  - unfold DocumentSizeQuota.process. rewrite (getitem_Some _ _ _ Hi).
    cbn [bind attr_pk]. now rewrite Hpk.
  - now apply size_process_new.
Qed.

(** X12: How [DocumentSizeQuota.process] ends: a missing ['instance'] key is a
    KeyError, and on a version, with the ['user'] key bound to None or to a
    user, the call either returns or raises QuotaExceeded with the text of
    the size quota, nothing else. *)
Theorem size_quota_outcomes (site : Site) (self : DocumentSizeQuota.t)
  (kwargs : gmap string pyval) :
  (kwargs !! "instance" = None ->
   DocumentSizeQuota.process site self kwargs = Raise (KeyError "instance"))
  /\ (forall v,
        kwargs !! "instance" = Some (PyDocumentVersion v) ->
        kwargs !! "user" = Some PyNone
        \/ (exists u, kwargs !! "user" = Some (PyUser u)) ->
        DocumentSizeQuota.process site self kwargs = Return tt
        \/ DocumentSizeQuota.process site self kwargs
           = Raise (QuotaExceeded "Document size quota exceeded.")).
Proof.
  split.
  - intros Hi. unfold DocumentSizeQuota.process. now rewrite (getitem_None _ _ Hi).
  - intros v Hi Huser. rewrite (size_process_version site self kwargs v Hi).
    destruct (truthy_pk _); [now left|].
    destruct (Qle_bool _ _); [|now left].
    destruct (type_in_scope _ _ _); [|now left].
    destruct Huser as [Hu | [u Hu]]; rewrite Hu.
    + destruct (DocumentSizeQuota.user_all self); [now right | now left].
    + destruct (privileged u); [now left|].
      destruct (_ || _); [now right | now left].
Qed.

(** X13: The size quota never raises for a user outside the explicit scope of a
    backend that is not scoped to all users, whatever the limit and the size. *)
Theorem size_quota_out_of_scope_user (site : Site) (self : DocumentSizeQuota.t)
  (kwargs : gmap string pyval) (u : User) :
  kwargs !! "user" = Some (PyUser u) ->
  DocumentSizeQuota.user_all self = false ->
  ~ in_explicit_scope site self u ->
  raises_quota (DocumentSizeQuota.process site self kwargs) = false.
Proof.
  intros Hu Hall Hout.
  assert (Hex : exists_ (filter_pk (scoped_users site self) (Some (user_pk u)))
                = false).
  { destruct (exists_ _) eqn:Hex; [|reflexivity].
    exfalso. apply Hout. now apply scoped_users_spec. }
  destruct (kwargs !! "instance") as [[|iu|d|v]|] eqn:Hi.
  - unfold DocumentSizeQuota.process. now rewrite (getitem_Some _ _ _ Hi).
  - unfold DocumentSizeQuota.process. rewrite (getitem_Some _ _ _ Hi).
    cbn [bind attr_pk]. now destruct (truthy_pk _).
  - unfold DocumentSizeQuota.process. rewrite (getitem_Some _ _ _ Hi).
    cbn [bind attr_pk]. now destruct (truthy_pk _).
  - rewrite (size_process_version site self kwargs v Hi), Hu, Hall, Hex.
    destruct (truthy_pk _); [reflexivity|].
    destruct (Qle_bool _ _); [|reflexivity].
    destruct (type_in_scope _ _ _); [|reflexivity].
    now destruct (privileged u).
  - unfold DocumentSizeQuota.process. now rewrite (getitem_None _ _ Hi).
Qed.

(** Alice uploads 2 MB against a limit of zero scoped to the user ids [[8]]. *)
Lemma size_quota_out_of_scope_user_witness :
  raises_quota
    (DocumentSizeQuota.process Sample.site
       (DocumentSizeQuota.__init__ 0 true [] [] false [8])
       (Sample.signal_kwargs (PyDocumentVersion (Sample.new_version 2097152 1))
          (PyUser Sample.alice))) = false.
Proof.
  apply (size_quota_out_of_scope_user Sample.site
           (DocumentSizeQuota.__init__ 0 true [] [] false [8])
           (Sample.signal_kwargs
              (PyDocumentVersion (Sample.new_version 2097152 1))
              (PyUser Sample.alice))
           Sample.alice eq_refl eq_refl).
  intros Hin. apply scoped_users_spec in Hin. discriminate Hin.
Defined.

(** X14: A limit of zero or less blocks every applicable upload, the empty file
    included: no size is below the threshold. *)
Theorem size_quota_nonpositive_limit (site : Site) (self : DocumentSizeQuota.t)
  (kwargs : gmap string pyval) (v : DocumentVersion) :
  kwargs !! "instance" = Some (PyDocumentVersion v) ->
  version_pk v = None ->
  type_in_scope site self (document_type_id (document v)) = true ->
  quota_applies_to site self (kwargs !! "user") ->
  (DocumentSizeQuota.document_size_limit self <= 0)%Q ->
  0 <= file_size v ->
  DocumentSizeQuota.process site self kwargs
  = Raise (QuotaExceeded "Document size quota exceeded.").
Proof.
  intros Hi Hnew Htype Happ Hlimit Hsize.
  rewrite (size_process_applicable site self kwargs v Hi Hnew Htype Happ).
  assert (Hle : Qle_bool (DocumentSizeQuota._allowed self)
                  (inject_Z (file_size v)) = true).
  { apply Qle_bool_iff. rewrite size_allowed_bytes.
    apply Qle_trans with (y := 0%Q).
    - rewrite <- (Qmult_0_l 1048576). apply Qmult_le_compat_r; [assumption|].
      discriminate.
    - change 0%Q with (inject_Z 0). now rewrite <- Zle_Qle. }
  now rewrite Hle.
Qed.

(** Alice uploads an empty file against a limit of 0 MB. *)
Lemma size_quota_nonpositive_limit_witness :
  DocumentSizeQuota.process Sample.site
    (DocumentSizeQuota.__init__ 0 true [] [] true [])
    (Sample.signal_kwargs (PyDocumentVersion (Sample.new_version 0 1))
       (PyUser Sample.alice))
  = Raise (QuotaExceeded "Document size quota exceeded.").
Proof.
  apply (size_quota_nonpositive_limit Sample.site
           (DocumentSizeQuota.__init__ 0 true [] [] true [])
           (Sample.signal_kwargs (PyDocumentVersion (Sample.new_version 0 1))
              (PyUser Sample.alice))
           (Sample.new_version 0 1) eq_refl eq_refl eq_refl
           (conj eq_refl (or_introl eq_refl))).
  - discriminate.
  - discriminate.
Defined.

(** X15: Raising [document_size_limit] never blocks an upload that the lower limit
    lets through: what raises under the higher limit raises under the lower. *)
Theorem size_quota_limit_monotone (site : Site) (lower higher : Q)
  (document_type_all : bool) (document_type_ids group_ids : list Z)
  (user_all : bool) (user_ids : list Z) (kwargs : gmap string pyval) :
  (lower <= higher)%Q ->
  raises_quota
    (DocumentSizeQuota.process site
       (DocumentSizeQuota.__init__ higher document_type_all document_type_ids
          group_ids user_all user_ids) kwargs) = true ->
  raises_quota
    (DocumentSizeQuota.process site
       (DocumentSizeQuota.__init__ lower document_type_all document_type_ids
          group_ids user_all user_ids) kwargs) = true.
Proof.
  intros Hle.
  destruct (kwargs !! "instance") as [[|iu|d|v]|] eqn:Hi.
  - unfold DocumentSizeQuota.process. now rewrite (getitem_Some _ _ _ Hi).
  - unfold DocumentSizeQuota.process. rewrite (getitem_Some _ _ _ Hi).
    cbn [bind attr_pk]. now destruct (truthy_pk _).
  - unfold DocumentSizeQuota.process. rewrite (getitem_Some _ _ _ Hi).
    cbn [bind attr_pk]. now destruct (truthy_pk _).
  - rewrite !(size_process_version site _ kwargs v Hi).
    destruct (truthy_pk _); [trivial|].
    destruct (Qle_bool (DocumentSizeQuota._allowed
                (DocumentSizeQuota.__init__ higher _ _ _ _ _)) _) eqn:Hhigh;
      [|discriminate].
    assert (Hlow : Qle_bool (DocumentSizeQuota._allowed
                (DocumentSizeQuota.__init__ lower document_type_all
                   document_type_ids group_ids user_all user_ids))
                (inject_Z (file_size v)) = true).
    { apply Qle_bool_iff. apply Qle_bool_iff in Hhigh.
      rewrite size_allowed_bytes in *. cbn [DocumentSizeQuota.document_size_limit] in *.
      apply Qle_trans with (y := (higher * 1048576)%Q); [|assumption].
      apply Qmult_le_compat_r; [assumption | discriminate]. }
    rewrite Hlow. trivial.
  - unfold DocumentSizeQuota.process. now rewrite (getitem_None _ _ Hi).
Qed.

(** Alice's upload of 2 MB is blocked at 2 MB, hence at 1 MB. *)
Lemma size_quota_limit_monotone_witness :
  raises_quota
    (DocumentSizeQuota.process Sample.site
       (DocumentSizeQuota.__init__ 1 true [] [] true [])
       (Sample.signal_kwargs (PyDocumentVersion (Sample.new_version 2097152 1))
          (PyUser Sample.alice))) = true.
Proof.
  apply (size_quota_limit_monotone Sample.site 1 2 true [] [] true []
           (Sample.signal_kwargs
              (PyDocumentVersion (Sample.new_version 2097152 1))
              (PyUser Sample.alice))).
  - discriminate.
  - reflexivity.
Defined.

(** X16: The size quota reads three things of a version: whether it has a key,
    the size of its file and the type of its document. A larger file of the
    same document is blocked wherever the smaller one is. *)
Theorem size_quota_size_monotone (site : Site) (self : DocumentSizeQuota.t)
  (kwargs : gmap string pyval) (v1 v2 : DocumentVersion) :
  truthy_pk (version_pk v1) = truthy_pk (version_pk v2) ->
  document_type_id (document v1) = document_type_id (document v2) ->
  file_size v1 <= file_size v2 ->
  (raises_quota
     (DocumentSizeQuota.process site self
        (<["instance" := PyDocumentVersion v1]> kwargs)) = true ->
   raises_quota
     (DocumentSizeQuota.process site self
        (<["instance" := PyDocumentVersion v2]> kwargs)) = true)
  /\ (file_size v1 = file_size v2 ->
      DocumentSizeQuota.process site self
        (<["instance" := PyDocumentVersion v1]> kwargs)
      = DocumentSizeQuota.process site self
          (<["instance" := PyDocumentVersion v2]> kwargs)).
Proof.
  intros Hpk Htype Hsize.
  rewrite (size_process_version site self _ v1
             (lookup_insert_eq kwargs "instance" _)).
  rewrite (size_process_version site self _ v2
             (lookup_insert_eq kwargs "instance" _)).
  assert (Huser : forall i : pyval,
            <["instance" := i]> kwargs !! "user" = kwargs !! "user").
  { intros i. rewrite lookup_insert_ne; [reflexivity | discriminate]. }
  rewrite !Huser, Hpk, Htype. split.
  - destruct (truthy_pk (version_pk v2)); [trivial|].
    destruct (Qle_bool _ (inject_Z (file_size v1))) eqn:Hle1; [|discriminate].
    assert (Hle2 : Qle_bool (DocumentSizeQuota._allowed self)
                     (inject_Z (file_size v2)) = true).
    { apply Qle_bool_iff. apply Qle_bool_iff in Hle1.
      apply Qle_trans with (y := inject_Z (file_size v1)); [assumption|].
      now rewrite <- Zle_Qle. }
    rewrite Hle2. trivial.
  - intros Heq. now rewrite Heq.
Qed.

(** Alice's upload of 2 MB is blocked at 2 MB, hence her upload of 3 MB. *)
Lemma size_quota_size_monotone_witness :
  raises_quota
    (DocumentSizeQuota.process Sample.site
       (DocumentSizeQuota.__init__ 2 true [] [] true [])
       (<["instance" := PyDocumentVersion (Sample.new_version 3145728 1)]>
          (Sample.signal_kwargs PyNone (PyUser Sample.alice)))) = true.
Proof.
  destruct (size_quota_size_monotone Sample.site
              (DocumentSizeQuota.__init__ 2 true [] [] true [])
              (Sample.signal_kwargs PyNone (PyUser Sample.alice))
              (Sample.new_version 2097152 1) (Sample.new_version 3145728 1)
              eq_refl eq_refl) as [Hraise _].
  - discriminate.
  - apply Hraise. reflexivity.
Defined.

(** X17: The size quota judges the file alone: it reads neither the stored
    documents nor their actions, so two sites with the same users, groups
    and document types give the same answer, whatever has been stored. *)
Theorem size_quota_ignores_stored_documents (site1 site2 : Site)
  (self : DocumentSizeQuota.t) (kwargs : gmap string pyval) :
  users site1 = users site2 ->
  groups site1 = groups site2 ->
  document_types site1 = document_types site2 ->
  get_user_queryset site1 = get_user_queryset site2 ->
  DocumentSizeQuota.process site1 self kwargs
  = DocumentSizeQuota.process site2 self kwargs.
Proof.
  intros Husers Hgroups Htypes Hqueryset.
  unfold DocumentSizeQuota.process, scoped_users, mixins._get_users,
    mixins._get_groups, mixins._get_document_types.
  now rewrite Husers, Hgroups, Htypes, Hqueryset.
Qed.

(** The sample site with a thousand megabytes more or less in store. *)
Lemma size_quota_ignores_stored_documents_witness :
  DocumentSizeQuota.process
    (store_documents Sample.site
       [Sample.stored_document 11 1 7; Sample.stored_document 12 1 7])
    (DocumentSizeQuota.__init__ 2 true [] [] true [])
    (Sample.signal_kwargs (PyDocumentVersion (Sample.new_version 2097151 1))
       (PyUser Sample.alice))
  = DocumentSizeQuota.process Sample.site
      (DocumentSizeQuota.__init__ 2 true [] [] true [])
      (Sample.signal_kwargs (PyDocumentVersion (Sample.new_version 2097151 1))
         (PyUser Sample.alice)).
Proof.
  apply (size_quota_ignores_stored_documents
           (store_documents Sample.site
              [Sample.stored_document 11 1 7; Sample.stored_document 12 1 7])
           Sample.site
           (DocumentSizeQuota.__init__ 2 true [] [] true [])
           (Sample.signal_kwargs
              (PyDocumentVersion (Sample.new_version 2097151 1))
              (PyUser Sample.alice))
           eq_refl eq_refl eq_refl eq_refl).
Defined.

(** ** Scope flags *)

(** X18: Under [user_all] the configured user and group ids are dead: neither
    backend's answer depends on them. *)
Theorem user_all_ignores_ids (site : Site) (kwargs : gmap string pyval)
  (document_type_all : bool) (document_type_ids : list Z)
  (documents_limit : Z) (document_size_limit : Q)
  (group_ids1 user_ids1 group_ids2 user_ids2 : list Z) :
  DocumentCountQuota.process site
    (DocumentCountQuota.__init__ document_type_all document_type_ids
       documents_limit group_ids1 true user_ids1) kwargs
  = DocumentCountQuota.process site
      (DocumentCountQuota.__init__ document_type_all document_type_ids
         documents_limit group_ids2 true user_ids2) kwargs
  /\ DocumentSizeQuota.process site
       (DocumentSizeQuota.__init__ document_size_limit document_type_all
          document_type_ids group_ids1 true user_ids1) kwargs
     = DocumentSizeQuota.process site
         (DocumentSizeQuota.__init__ document_size_limit document_type_all
            document_type_ids group_ids2 true user_ids2) kwargs.
Proof. split; reflexivity. Qed.

(** X19: Under [document_type_all] the configured document type ids are dead:
    neither backend's answer depends on them. *)
Theorem document_type_all_ignores_ids (site : Site) (kwargs : gmap string pyval)
  (document_type_ids1 document_type_ids2 : list Z)
  (documents_limit : Z) (document_size_limit : Q)
  (group_ids : list Z) (user_all : bool) (user_ids : list Z) :
  DocumentCountQuota.process site
    (DocumentCountQuota.__init__ true document_type_ids1
       documents_limit group_ids user_all user_ids) kwargs
  = DocumentCountQuota.process site
      (DocumentCountQuota.__init__ true document_type_ids2
         documents_limit group_ids user_all user_ids) kwargs
  /\ DocumentSizeQuota.process site
       (DocumentSizeQuota.__init__ document_size_limit true
          document_type_ids1 group_ids user_all user_ids) kwargs
     = DocumentSizeQuota.process site
         (DocumentSizeQuota.__init__ document_size_limit true
            document_type_ids2 group_ids user_all user_ids) kwargs.
Proof. split; reflexivity. Qed.

(** ** The count without a user *)

Lemma length_filter_implied {A : Type} (f g : A -> bool) (l : list A) :
  (forall x, f x = true -> g x = true) ->
  (length (List.filter f l) <= length (List.filter g l))%nat.
Proof.
  intros Hfg. induction l as [|x l IH]; simpl; [lia|].
  destruct (f x) eqn:Hf.
  - rewrite (Hfg x Hf). simpl. lia.
  - destruct (g x); simpl; lia.
Qed.

(** The creations of one user are among the creations of anyone. *)
Lemma creations_by_le_anyone (site : Site) (self : DocumentCountQuota.t) (u : User) :
  creations_by site self u <= creations_by_anyone site self.
Proof.
  unfold creations_by, creations_by_anyone, creations, count.
  apply inj_le. apply length_flat_map_le. intros d.
  destruct (type_in_scope site self (document_type_id d)); simpl; [|lia].
  apply length_filter_implied. intros a Ha.
  apply andb_true_iff in Ha as [Ha _]. now rewrite Ha.
Qed.

(** X20: a signal without user is judged on the creations of everybody, which
    no single user's count exceeds: a creation that is blocked for some user
    is blocked as well when the same signal carries None for the user. *)
Theorem count_quota_strictest_without_user (site : Site)
  (self : DocumentCountQuota.t) (kwargs : gmap string pyval) (u : User) :
  raises_quota
    (DocumentCountQuota.process site self (<["user" := PyUser u]> kwargs)) = true ->
  raises_quota
    (DocumentCountQuota.process site self (<["user" := PyNone]> kwargs)) = true.
Proof.
  unfold DocumentCountQuota.process, getitem.
  rewrite !lookup_insert_ne by discriminate.
  destruct (kwargs !! "instance") as [instance|]; cbn [bind]; [|discriminate].
  destruct (attr_pk instance) as [pk|e]; cbn [bind]; [|trivial].
  destruct (truthy_pk pk); cbn [negb]; [discriminate|].
  rewrite (get_Some _ _ _ (lookup_insert_eq kwargs "user" (PyUser u))).
  rewrite (get_Some _ _ _ (lookup_insert_eq kwargs "user" PyNone)).
  rewrite document_count_user, document_count_anyone. cbn [bind].
  unfold DocumentCountQuota._allowed. rewrite !Z.geb_leb.
  pose proof (creations_by_le_anyone site self u) as Hle.
  assert (Hpos : 0 <= creations_by_anyone site self)
    by (unfold creations_by_anyone, count; lia).
  destruct (_ <=? (if privileged u then _ else _)) eqn:Huser; [|discriminate].
  apply Z.leb_le in Huser. intros _.
  assert (Hany : (DocumentCountQuota.documents_limit self
                  <=? creations_by_anyone site self) = true).
  { apply Z.leb_le. destruct (privileged u); [lia|].
    destruct (_ && _); lia. }
  now rewrite Hany.
Qed.

(** Alice is blocked at the sample site under a limit of one; so is the
    same creation sent without her. *)
Lemma count_quota_strictest_without_user_witness :
  raises_quota
    (DocumentCountQuota.process Sample.site
       (DocumentCountQuota.__init__ true [] 1 [] true [])
       (<["user" := PyNone]>
          (Sample.signal_kwargs_no_user (PyDocument (Sample.new_document 1)))))
  = true.
Proof.
  apply (count_quota_strictest_without_user Sample.site
           (DocumentCountQuota.__init__ true [] 1 [] true [])
           (Sample.signal_kwargs_no_user (PyDocument (Sample.new_document 1)))
           Sample.alice).
  reflexivity.
Defined.
